(** * Student marks backend: upload, import, lookup and delete

    A shallow embedding of [backend/app.py], [backend/migrate_to_mongo.py] and
    [backend/models.py].  The three MongoDB collections the handlers touch
    (students, marks, uploads) are lists of documents in insertion order;
    handlers are computations in a state-and-exception monad over the database;
    the libraries the handlers call (pandas, bcrypt, werkzeug, the clock) are the
    fields of the class [Platform]. *)

From Stdlib Require Import List String Ascii Bool Arith ZArith Lia.
Import ListNotations.
Open Scope string_scope.
Open Scope list_scope.

(* ------------------------------------------------------------------ *)
(** ** Python strings *)

(** [str.isspace] on the ASCII range: tab to carriage return, the four
    separators 28 to 31, and the blank. *)
Definition isspace (c : ascii) : bool :=
  let n := nat_of_ascii c in
  ((9 <=? n)%nat && (n <=? 13)%nat) || ((28 <=? n)%nat && (n <=? 32)%nat).

Fixpoint lstrip (s : string) : string :=
  match s with
  | EmptyString => EmptyString
  | String c rest => if isspace c then lstrip rest else s
  end.

Definition rev_string (s : string) : string :=
  string_of_list_ascii (rev (list_ascii_of_string s)).

(** [s.strip()] *)
Definition strip (s : string) : string :=
  rev_string (lstrip (rev_string (lstrip s))).

Definition lower_ascii (c : ascii) : ascii :=
  let n := nat_of_ascii c in
  if (65 <=? n)%nat && (n <=? 90)%nat then ascii_of_nat (n + 32) else c.

(** [s.lower()] *)
Fixpoint lower (s : string) : string :=
  match s with
  | EmptyString => EmptyString
  | String c rest => String (lower_ascii c) (lower rest)
  end.

(** [s.endswith(suffix)] *)
Definition endswith (s suffix : string) : bool :=
  (String.length suffix <=? String.length s)%nat &&
  (substring (String.length s - String.length suffix) (String.length suffix) s =? suffix).

(** Truth value of a Python string: [bool(s)]. *)
Definition nonempty (s : string) : bool := negb (s =? "").

(** [x in xs] for a list or set of strings. *)
Definition mem (x : string) (xs : list string) : bool :=
  existsb (String.eqb x) xs.

(* ------------------------------------------------------------------ *)
(** ** Document fields and exceptions *)

(** A field of a MongoDB document: missing from the document, stored as
    null (Python [None]), or a string. *)
Inductive field : Type :=
| Absent
| Null
| Text (s : string).

(** [doc.get(key)]: [None] when the key is missing. *)
Definition get (f : field) : option string :=
  match f with
  | Text s => Some s
  | Absent | Null => None
  end.

(** [doc.get(key, "")] *)
Definition get_default (f : field) : option string :=
  match f with
  | Text s => Some s
  | Null => None
  | Absent => Some ""
  end.

(** Truth value of an optional string: [None] and [""] are false. *)
Definition truthy (v : option string) : bool :=
  match v with
  | Some s => nonempty s
  | None => false
  end.

(** A Python value that is [None] or a string, as a stored field. *)
Definition of_option (v : option string) : field :=
  match v with
  | Some s => Text s
  | None => Null
  end.

Definition field_eqb (a b : field) : bool :=
  match a, b with
  | Absent, Absent => true
  | Null, Null => true
  | Text s, Text t => s =? t
  | _, _ => false
  end.

(** The exceptions the handlers can meet: a failed conversion ([float],
    [pd.to_datetime], [bcrypt.checkpw] on a malformed hash), an attribute of a
    data frame asked of a dict, a label a series or dict lacks, and a
    unique-index violation reported by the store. *)
Inductive exn : Type :=
| ValueError
| AttributeError
| KeyError
| DuplicateKeyError.

Definition is_DuplicateKeyError (e : exn) : bool :=
  match e with
  | DuplicateKeyError => true
  | _ => false
  end.

(* ------------------------------------------------------------------ *)
(** ** Data frames *)

(** A data frame as pandas hands it over: the column labels of the header and
    the rows in file order, each row a series from column label to cell.  A
    row is read only at labels of [columns].  Labels are taken pairwise
    distinct after normalisation, as in a sheet with one column per field.
    [int_idx] is the index of the frame as far as the code looks at it: for the
    label [idx] that [df.iterrows()] yields with the row at a position of
    [rows], the integer [int(idx)], and [None] where [int] raises. *)
Record frame (C : Type) : Type := mkFrame {
  columns : list string;
  rows : list (string -> C);
  int_idx : nat -> option Z;
}.
Arguments mkFrame {C} _ _ _.
Arguments columns {C} _.
Arguments rows {C} _.
Arguments int_idx {C} _.

(** The index pandas gives a frame read from a file that has none of its
    own: the rows are labelled 0, 1, 2, ...  A file whose data lines have one
    more field than its header has its first column as index instead. *)
Definition range_index : nat -> option Z := fun i => Some (Z.of_nat i).

(** What [pd.read_excel] returns: one frame, or a dict of frames when it was
    called with [sheet_name=None]. *)
Inductive workbook (C : Type) : Type :=
| OneSheet (df : frame C)
| AllSheets (dfs : list (string * frame C)).
Arguments OneSheet {C} _.
Arguments AllSheets {C} _.

(** The [sheet_name] argument of [pd.read_excel]. *)
Inductive sheet_name : Type :=
| FirstSheet
| EverySheet
| Sheet (name : string).

(** [df.empty]: some axis has length zero. *)
Definition empty {C : Type} (df : frame C) : bool :=
  match columns df, rows df with
  | [], _ => true
  | _, [] => true
  | _, _ => false
  end.

(* ------------------------------------------------------------------ *)
(** ** The libraries *)

(** What the handlers use of pandas, bcrypt, werkzeug, [os.path] and the
    clock.  [None] stands for a raised exception. *)
Class Platform : Type := {
  (** a cell of a data frame, whatever pandas read *)
  cell : Type;
  (** Python [float] values *)
  num : Type;
  (** the bytes of a file *)
  content : Type;
  (** [pd.isna(c)] *)
  isna : cell -> bool;
  (** [str(c)] *)
  py_str : cell -> string;
  (** [float(c)] *)
  py_float : cell -> option num;
  (** [pd.to_datetime(c).date().isoformat()] *)
  to_datetime_iso : cell -> option string;
  (** [bcrypt.gensalt()], the n-th salt drawn *)
  gensalt : nat -> string;
  (** [bcrypt.hashpw(text.encode(), salt).decode()] *)
  hashpw : string -> string -> string;
  (** [bcrypt.checkpw(text.encode(), hashed.encode())] *)
  checkpw : string -> string -> option bool;
  (** [datetime.datetime.utcnow()], the n-th reading of the clock *)
  utcnow : nat -> nat;
  (** [werkzeug.utils.secure_filename] *)
  secure_filename : string -> string;
  (** the extension [os.path.splitext] returns *)
  splitext_ext : string -> string;
  (** [pd.read_csv] *)
  read_csv : content -> option (frame cell);
  (** [pd.read_excel] *)
  read_excel : sheet_name -> content -> option (workbook cell);
}.

(* ------------------------------------------------------------------ *)
(** ** The database *)

(** A document of [db.students]. *)
Record student : Type := mkStudent {
  s_register_number : string;
  s_student_name : field;
  s_dob_hash : field;
  s_created_at : nat;
}.

(** A document of [db.uploads]. *)
Record upload : Type := mkUpload {
  u_filename : string;
  u_uploaded_by : string;
  u_uploaded_at : nat;
}.

(** A document of [db.staff]. *)
Record staff_user : Type := mkStaff {
  f_email : string;
  f_password_hash : field;
  f_role : field;
  f_created_at : nat;
}.

(** The claims of a token: what [generate_jwt] signs. *)
Record payload : Type := mkPayload {
  p_email : string;
  p_role : option string;
  p_exp : nat;
}.

(** How [jwt.decode] ends: the claims, or one of the two exceptions that
    [decode_jwt] handles. *)
Inductive jwt_result : Type :=
| Valid (claims : payload)
| ExpiredSignatureError
| InvalidTokenError.

(** What the service needs besides [Platform]: the two settings read from
    the environment, the jwt library, and the size and time of a stored file. *)
Class Host : Type := {
  JWT_SECRET : string;
  JWT_EXP_HOURS : nat;
  (** [datetime.timedelta(hours=n)], in the unit of the clock *)
  timedelta_hours : nat -> nat;
  (** [jwt.encode(payload, secret, algorithm="HS256")] *)
  jwt_encode : payload -> string -> string;
  (** [jwt.decode(token, secret, algorithms=["HS256"])] at a given time *)
  jwt_decode : string -> string -> nat -> jwt_result;
  (** [os.path.getsize] and [os.path.getmtime] of a file of [UPLOAD_DIR] *)
  getsize : string -> nat;
  getmtime : string -> nat;
}.

Section Store.
Context {P : Platform}.

(** A document of [db.marks]. *)
Record mark : Type := mkMark {
  m_register_number : string;
  m_subject_code : string;
  m_marks : num;
  m_uploaded_by : string;
  m_uploaded_at : nat;
  m_source_file : field;
  m_subject_name : field;
  m_exam_date : field;
}.

(** The state the handlers run against: the three collections, the names
    stored in [UPLOAD_DIR], whether [db.marks] carries the unique index on
    [(register_number, subject_code)] (app.py creates it, [create_indexes] of
    the migration script does not), and how many clock readings and salts were
    drawn so far. *)
Record db : Type := mkDb {
  students : list student;
  marks : list mark;
  uploads : list upload;
  files : list string;
  marks_unique : bool;
  clock : nat;
  salts : nat;
}.

Definition set_students (l : list student) (d : db) : db :=
  mkDb l (marks d) (uploads d) (files d) (marks_unique d) (clock d) (salts d).
Definition set_marks (l : list mark) (d : db) : db :=
  mkDb (students d) l (uploads d) (files d) (marks_unique d) (clock d) (salts d).
Definition set_uploads (l : list upload) (d : db) : db :=
  mkDb (students d) (marks d) l (files d) (marks_unique d) (clock d) (salts d).
Definition set_files (l : list string) (d : db) : db :=
  mkDb (students d) (marks d) (uploads d) l (marks_unique d) (clock d) (salts d).

(** *** State and exceptions *)

(** A handler ends normally with a value or with an exception; the database
    it leaves keeps the writes made before the exception. *)
Inductive outcome (A : Type) : Type :=
| Done (a : A) (d : db)
| Raised (e : exn) (d : db).
Arguments Done {A} _ _.
Arguments Raised {A} _ _.

Definition M (A : Type) : Type := db -> outcome A.

Definition ret {A : Type} (a : A) : M A := fun d => Done a d.

Definition raise {A : Type} (e : exn) : M A := fun d => Raised e d.

Definition bind {A B : Type} (c : M A) (k : A -> M B) : M B :=
  fun d =>
    match c d with
    | Done a d' => k a d'
    | Raised e d' => Raised e d'
    end.

(** [try: c  except E: h] for the exceptions [E] selected by [catches]. *)
Definition try_except {A : Type} (c : M A) (catches : exn -> bool) (h : exn -> M A) : M A :=
  fun d =>
    match c d with
    | Done a d' => Done a d'
    | Raised e d' => if catches e then h e d' else Raised e d'
    end.

Definition modify (f : db -> db) : M unit := fun d => Done tt (f d).

Definition final {A : Type} (o : outcome A) : db :=
  match o with
  | Done _ d => d
  | Raised _ d => d
  end.

(** A conversion of the library that raises [ValueError] when it fails. *)
Definition convert {A : Type} (v : option A) : M A :=
  match v with
  | Some a => ret a
  | None => raise ValueError
  end.

(** [datetime.datetime.utcnow()] *)
Definition now : M nat :=
  fun d => Done (utcnow (clock d))
                (mkDb (students d) (marks d) (uploads d) (files d) (marks_unique d)
                      (S (clock d)) (salts d)).

(** [bcrypt.hashpw(text.encode(), bcrypt.gensalt()).decode()] *)
Definition hashpw_fresh (text : string) : M string :=
  fun d => Done (hashpw text (gensalt (salts d)))
                (mkDb (students d) (marks d) (uploads d) (files d) (marks_unique d)
                      (clock d) (S (salts d))).

(** *** Collection operations *)

Definition has_register_number (reg : string) (s : student) : bool :=
  s_register_number s =? reg.

Definition has_key (reg subject : string) (m : mark) : bool :=
  (m_register_number m =? reg) && (m_subject_code m =? subject).

(** [col.find_one(filter)]: the first document that matches. *)
Definition find_one {A : Type} (p : A -> bool) (l : list A) : option A := find p l.

(** [col.update_one(filter, {"$set": ...})]: the first match is rewritten. *)
Fixpoint update_one {A : Type} (p : A -> bool) (f : A -> A) (l : list A) : list A :=
  match l with
  | [] => []
  | x :: rest => if p x then f x :: rest else x :: update_one p f rest
  end.

(** [col.update_one(filter, update, upsert=True)]: the first match is
    rewritten; without a match the document [fresh] is inserted. *)
Definition update_one_upsert {A : Type} (p : A -> bool) (f : A -> A) (fresh : A)
    (l : list A) : list A :=
  if existsb p l then update_one p f l else l ++ [fresh].

(** [col.delete_one(filter)] *)
Fixpoint delete_one {A : Type} (p : A -> bool) (l : list A) : list A :=
  match l with
  | [] => []
  | x :: rest => if p x then rest else x :: delete_one p rest
  end.

(** [col.delete_many(filter)] *)
Definition delete_many {A : Type} (p : A -> bool) (l : list A) : list A :=
  filter (fun x => negb (p x)) l.

(** [students_col.insert_one(doc)] under the unique index on
    [register_number]. *)
Definition insert_student (s : student) : M unit :=
  fun d =>
    if existsb (has_register_number (s_register_number s)) (students d)
    then Raised DuplicateKeyError d
    else Done tt (set_students (students d ++ [s]) d).

(** [marks_col.insert_one(doc)]: refused for a pair already stored when the
    unique index on the pair exists. *)
Definition insert_mark (m : mark) : M unit :=
  fun d =>
    if marks_unique d && existsb (has_key (m_register_number m) (m_subject_code m)) (marks d)
    then Raised DuplicateKeyError d
    else Done tt (set_marks (marks d ++ [m]) d).

End Store.

Arguments Done {P A} _ _.
Arguments Raised {P A} _ _.

Declare Scope monad_scope.
Delimit Scope monad_scope with monad.
Notation "x <- c ;; k" := (bind c (fun x => k))
  (at level 61, c at next level, right associativity) : monad_scope.
Notation "c ;;; k" := (bind c (fun _ => k))
  (at level 61, right associativity) : monad_scope.

(** What a handler of the service answers: a JSON body and a status code. *)
Inductive body {P : Platform} : Type :=
| Error (msg : string)
| Processed (n : nat)
| Deleted
| Details (register_number : string) (student_name : option string) (found : list mark).

Definition response {P : Platform} : Type := (body * nat)%type.

(** What [decode_jwt] returns: the claims, or the dict [{"_error": why}]. *)
Inductive decoded : Type :=
| Claims (user : payload)
| Failed (why : string).

(** What a route behind [require_auth] answers: the error of the wrapper
    with its status, or what the wrapped function returned. *)
Inductive guarded (A : Type) : Type :=
| Denied (msg : string) (status : nat)
| Served (a : A).
Arguments Denied {A} _ _.
Arguments Served {A} _.

(** The body of the answer of [login]. *)
Inductive login_body : Type :=
| LoginError (msg : string)
| Token (token : string).

(** An entry of the list of [list_uploads]. *)
Record file_info : Type := mkFileInfo {
  name : string;
  size_bytes : nat;
  modified_at : nat;
}.

(* ------------------------------------------------------------------ *)
(** ** backend/app.py *)

Module App.
Section Handlers.
Context {P : Platform}.
Open Scope monad_scope.

Definition ALLOWED_EXTS : list string := [".xlsx"; ".xls"; ".csv"].

(** [hash_text]: bcrypt with a fresh salt. *)
Definition hash_text (text : string) : M string := hashpw_fresh text.

(** [verify_hash]: [bool(hashed) and bcrypt.checkpw(...)]; [hashed] is [None]
    or a string. *)
Definition verify_hash (text : string) (hashed : option string) : M bool :=
  match hashed with
  | None => ret false
  | Some h => if nonempty h then convert (checkpw text h) else ret false
  end.

Definition allowed_file (name : string) : bool :=
  mem (splitext_ext (lower name)) ALLOWED_EXTS.

(** The labels after [df.columns = [c.lower().strip() for c in df.columns]]. *)
Definition normalized (cols : list string) : list string :=
  map (fun c => strip (lower c)) cols.

(** [row.get(label)] on a row of the relabelled frame: the cell under the
    column whose new label is [label], [None] without such a column. *)
Definition row_get (cols : list string) (row : string -> cell) (label : string) : option cell :=
  match find (fun c => strip (lower c) =? label) cols with
  | Some c => Some (row c)
  | None => None
  end.

(** [label in row] *)
Definition in_row (cols : list string) (label : string) : bool :=
  mem label (normalized cols).

(** [pd.isna] of what [row.get] returned ([None] counts as missing). *)
Definition isna_get (v : option cell) : bool :=
  match v with
  | Some c => isna c
  | None => true
  end.

(** [str(row.get(label, ""))] *)
Definition str_get (v : option cell) : string :=
  match v with
  | Some c => py_str c
  | None => ""
  end.

(** [float(marks_val)], [None] when it raises. *)
Definition float_get (v : option cell) : option num :=
  match v with
  | Some c => py_float c
  | None => None
  end.

(** [reg], [subject] and [marks_val] of a row. *)
Definition row_reg (cols : list string) (row : string -> cell) : string :=
  strip (str_get (row_get cols row "register_number")).

Definition row_subject (cols : list string) (row : string -> cell) : string :=
  strip (str_get (row_get cols row "subject_code")).

Definition row_marks (cols : list string) (row : string -> cell) : option cell :=
  row_get cols row "marks".

(** The test of the [continue] that opens the loop body. *)
Definition skipped (cols : list string) (row : string -> cell) : bool :=
  negb (nonempty (row_reg cols row)) || negb (nonempty (row_subject cols row))
  || isna_get (row_marks cols row).

(** The [student_name] of a row: the trimmed text of the cell, [None] when
    the frame has no such column or the cell is missing. *)
Definition row_student_name (cols : list string) (row : string -> cell) : option string :=
  if in_row cols "student_name" && negb (isna_get (row_get cols row "student_name"))
  then Some (strip (str_get (row_get cols row "student_name")))
  else None.

(** The [dob] of a row: the ISO date pandas parsed, [None] without a value;
    a parse failure is not handled ([None] at the outer level: it raises). *)
Definition row_dob (cols : list string) (row : string -> cell) : option (option string) :=
  if in_row cols "dob" && negb (isna_get (row_get cols row "dob"))
  then
    match row_get cols row "dob" with
    | Some c => option_map Some (to_datetime_iso c)
    | None => None
    end
  else Some None.

(** [students_col.update_one({"register_number": reg}, update, upsert=True)]
    with [$set] of the name and [$setOnInsert] of the hash (when there is
    one), the register number and the creation time. *)
Definition upsert_student_doc (reg : string) (student_name : option string)
    (dob_hash : field) (created_at : nat) : M unit :=
  modify (fun d =>
    set_students
      (update_one_upsert (has_register_number reg)
         (fun s => mkStudent (s_register_number s) (of_option student_name)
                             (s_dob_hash s) (s_created_at s))
         (mkStudent reg (of_option student_name) dob_hash created_at)
         (students d)) d).

(** [marks_col.update_one({"register_number": reg, "subject_code": subject},
    {"$set": {...}}, upsert=True)] *)
Definition upsert_mark_doc (reg subject : string) (value : num) (uploaded_by : string)
    (uploaded_at : nat) (source_file : string) : M unit :=
  modify (fun d =>
    set_marks
      (update_one_upsert (has_key reg subject)
         (fun m => mkMark (m_register_number m) (m_subject_code m) value uploaded_by
                          uploaded_at (Text source_file) (m_subject_name m) (m_exam_date m))
         (mkMark reg subject value uploaded_by uploaded_at (Text source_file) Absent Absent)
         (marks d)) d).

(** The student update of a row: the hash is computed when the row has a
    date of birth, the creation time is read, and the document is upserted. *)
Definition store_student (reg : string) (student_name dob : option string) : M unit :=
  dob_hash <- (if truthy dob
               then h <- hash_text (match dob with Some t => t | None => "" end) ;;
                    ret (Text h)
               else ret Absent) ;;
  created_at <- now ;;
  upsert_student_doc reg student_name dob_hash created_at.

(** The [try] of a row: the mark is upserted and the row counted; a
    [DuplicateKeyError] is swallowed, any other exception goes on. *)
Definition store_mark (filename email reg subject : string) (marks_val : option cell) : M bool :=
  try_except
    (value <- convert (float_get marks_val) ;;
     uploaded_at <- now ;;
     upsert_mark_doc reg subject value email uploaded_at filename ;;;
     ret true)
    is_DuplicateKeyError
    (fun _ => ret false).

(** One turn of the loop of [upload_marks]; the result tells whether
    [inserted] is incremented. *)
Definition upload_row (filename email : string) (cols : list string)
    (row : string -> cell) : M bool :=
  if skipped cols row
  then ret false
  else
    dob <- convert (row_dob cols row) ;;
    store_student (row_reg cols row) (row_student_name cols row) dob ;;;
    store_mark filename email (row_reg cols row) (row_subject cols row) (row_marks cols row).

(** The loop over [df.iterrows()]. *)
Fixpoint upload_rows (filename email : string) (cols : list string)
    (todo : list (string -> cell)) (inserted : nat) : M nat :=
  match todo with
  | [] => ret inserted
  | row :: rest =>
      counted <- upload_row filename email cols row ;;
      upload_rows filename email cols rest (if counted then S inserted else inserted)
  end.

(** [file.save(path)] *)
Definition save (filename : string) : M unit :=
  modify (fun d => if mem filename (files d) then d else set_files (files d ++ [filename]) d).

(** The reader of [upload_marks]: csv by the name, a workbook otherwise;
    [None] when pandas raised. *)
Definition read_upload (filename : string) (bytes : content) : option (workbook cell) :=
  if endswith (lower filename) ".csv"
  then option_map OneSheet (read_csv bytes)
  else read_excel FirstSheet bytes.

Definition required : list string := ["register_number"; "subject_code"; "marks"].

(** [required.issubset(set(df.columns))] *)
Definition issubset (xs ys : list string) : bool :=
  forallb (fun x => mem x ys) xs.

(** [upload_marks], past [require_auth]: [file] is [request.files.get("file")]
    as its name and bytes, [email] is [request.user["email"]]. *)
Definition upload_marks (file : option (string * content)) (email : string) : M response :=
  match file with
  | None => ret (Error "No file uploaded", 400)
  | Some (name, bytes) =>
      if negb (nonempty name) then ret (Error "Empty filename", 400)
      else if negb (allowed_file name) then ret (Error "Unsupported file type", 400)
      else
        let filename := secure_filename name in
        save filename ;;;
        match read_upload filename bytes with
        | None => ret (Error "Invalid spreadsheet", 400)
        | Some (AllSheets _) => raise AttributeError
        | Some (OneSheet df) =>
            if negb (issubset required (normalized (columns df)))
            then ret (Error "Missing required columns", 400)
            else
              inserted <- upload_rows filename email (columns df) (rows df) 0 ;;
              uploaded_at <- now ;;
              modify (fun d => set_uploads (uploads d ++ [mkUpload filename email uploaded_at]) d) ;;;
              ret (Processed inserted, 200)
        end
  end.

(** [lookup]: [register_number] and [dob] are the request's fields after
    [str(...)], the empty string for a field the request lacks. *)
Definition lookup (register_number dob : string) : M response :=
  let reg := strip register_number in
  let dob := strip dob in
  if negb (nonempty reg) || negb (nonempty dob)
  then ret (Error "register_number and dob required", 400)
  else fun d =>
    match find_one (has_register_number reg) (students d) with
    | None => Done (Error "Invalid details", 401) d
    | Some s =>
        (ok <- verify_hash dob (get_default (s_dob_hash s)) ;;
         if negb ok then ret (Error "Invalid details", 401)
         else fun d' =>
           Done (Details reg (get (s_student_name s))
                   (filter (fun m => m_register_number m =? reg) (marks d')), 200) d') d
    end.

(** [delete_upload], past [require_auth("admin")]: [filename] is
    [data.get("filename", "")]. *)
Definition delete_upload (filename : string) : M response :=
  let name := secure_filename filename in
  if negb (nonempty name) then ret (Error "filename required", 400)
  else
    modify (fun d => set_files (delete_many (String.eqb name) (files d)) d) ;;;
    modify (fun d => set_uploads (delete_one (fun u => u_filename u =? name) (uploads d)) d) ;;;
    modify (fun d => set_marks
                       (delete_many (fun m => field_eqb (m_source_file m) (Text name)) (marks d)) d) ;;;
    ret (Deleted, 200).

End Handlers.

Section Auth.
Context {P : Platform} {H : Host}.
Open Scope monad_scope.

(** [generate_jwt({"email": email, "role": role})] *)
Definition generate_jwt (email : string) (role : option string) : M string :=
  issued <- now ;;
  ret (jwt_encode (mkPayload email role (issued + timedelta_hours JWT_EXP_HOURS)) JWT_SECRET).

(** [decode_jwt]; the library reads the clock to judge the expiry. *)
Definition decode_jwt (token : string) : M decoded :=
  at_ <- now ;;
  match jwt_decode token JWT_SECRET at_ with
  | Valid claims => ret (Claims claims)
  | ExpiredSignatureError => ret (Failed "expired")
  | InvalidTokenError => ret (Failed "invalid")
  end.

(** [data.get("role") != role] *)
Definition role_differs (held : option string) (role : string) : bool :=
  match held with
  | Some r => negb (r =? role)
  | None => true
  end.

(** [require_auth(role)(fn)]: [authorization] is the header of the
    request, the empty string without one; [fn] receives [request.user]. *)
Definition require_auth {A : Type} (role : option string) (fn : payload -> M A)
    (authorization : string) : M (guarded A) :=
  if negb (prefix "Bearer " authorization)
  then ret (Denied "Missing token" 401)
  else
    let token := strip (substring 7 (String.length authorization - 7) authorization) in
    data <- decode_jwt token ;;
    match data with
    | Failed _ => ret (Denied "Invalid or expired token" 401)
    | Claims user =>
        if truthy role && role_differs (p_role user) (match role with Some r => r | None => "" end)
        then ret (Denied "Forbidden" 403)
        else a <- fn user ;; ret (Served a)
    end.

(** [role] of a staff document, ["staff"] when the document has none. *)
Definition role_of (user : staff_user) : option string :=
  match f_role user with
  | Text r => Some r
  | Null => None
  | Absent => Some "staff"
  end.

(** [login]: [email] and [password] are the fields of the request, the
    empty string for a field it lacks; [staff_col] is the staff collection. *)
Definition login (staff_col : list staff_user) (email password : string)
    : M (login_body * nat) :=
  let email := lower (strip email) in
  if negb (nonempty email) || negb (nonempty password)
  then ret (LoginError "Email and password required", 400)
  else
    match find_one (fun u => f_email u =? email) staff_col with
    | None => ret (LoginError "Invalid credentials", 401)
    | Some user =>
        ok <- verify_hash password (get_default (f_password_hash user)) ;;
        if negb ok then ret (LoginError "Invalid credentials", 401)
        else token <- generate_jwt email (role_of user) ;; ret (Token token, 200)
    end.

(** [list_uploads]: the uploads whose file is in [UPLOAD_DIR]. *)
Definition list_uploads : M (list file_info) :=
  fun d =>
    Done (map (fun u => mkFileInfo (u_filename u) (getsize (u_filename u))
                                   (getmtime (u_filename u)))
              (filter (fun u => mem (u_filename u) (files d)) (uploads d))) d.

(** The three routes behind [require_auth]. *)
Definition upload_marks_route (authorization : string) (file : option (string * content))
    : M (guarded response) :=
  require_auth None (fun user => upload_marks file (p_email user)) authorization.

Definition list_uploads_route (authorization : string) : M (guarded (list file_info)) :=
  require_auth (Some "admin") (fun _ => list_uploads) authorization.

Definition delete_upload_route (authorization : string) (filename : string)
    : M (guarded response) :=
  require_auth (Some "admin") (fun _ => delete_upload filename) authorization.

End Auth.
End App.

(* ------------------------------------------------------------------ *)
(** ** backend/migrate_to_mongo.py *)

(** Why a row of an import is listed in [errors]: the text
    ["missing required"], or [str(e)] of the exception [e]. *)
Inductive reason : Type :=
| MissingRequired
| Message (e : exn).

(** An entry of [errors]: the text ["empty file"], or a row with its reason. *)
Inductive import_error : Type :=
| EmptyFile
| RowError (row : Z) (why : reason).

(** What [import_marks_file] returns. *)
Inductive import_result : Type :=
| FileNotFound
| UnsupportedExtension
| ReadError
| MissingColumn (missing : string)
| Imported (inserted : nat) (errors : list import_error).

(** How the body of the loop of [import_marks_file] ends when it does not
    raise: the mark was inserted, or the row lacked a required value. *)
Inductive row_status : Type :=
| Inserted
| LacksRequired.

Module Migrate.
Section Importing.
Context {P : Platform}.
Open Scope monad_scope.

(** [normalize_columns]: the dict from normalised label to label, as the
    list of its assignments in order. *)
Definition normalize_columns (cols : list string) : list (string * string) :=
  map (fun c => (strip (lower c), c)) cols.

(** [colmap[key]]: the last assignment to [key] stands. *)
Definition colmap_get (colmap : list (string * string)) (key : string) : option string :=
  match find (fun kv => fst kv =? key) (rev colmap) with
  | Some kv => Some (snd kv)
  | None => None
  end.

(** [key in colmap] *)
Definition in_colmap (key : string) (colmap : list (string * string)) : bool :=
  existsb (fun kv => fst kv =? key) colmap.

(** [row[colmap[key]]] *)
Definition row_at (colmap : list (string * string)) (row : string -> cell) (key : string) : M cell :=
  match colmap_get colmap key with
  | Some c => ret (row c)
  | None => raise KeyError
  end.

(** An optional text column: the trimmed text of the cell, [None] without
    the column or the value. *)
Definition optional_text (colmap : list (string * string)) (row : string -> cell)
    (key : string) : M (option string) :=
  if in_colmap key colmap
  then
    val <- row_at colmap row key ;;
    if negb (isna val) then ret (Some (strip (py_str val))) else ret None
  else ret None.

(** An optional date column: the ISO date pandas parsed, the trimmed text
    of the cell when pandas raised, [None] without the column or the value. *)
Definition optional_date (colmap : list (string * string)) (row : string -> cell)
    (key : string) : M (option string) :=
  if in_colmap key colmap
  then
    raw <- row_at colmap row key ;;
    if negb (isna raw)
    then try_except (iso <- convert (to_datetime_iso raw) ;; ret (Some iso))
                    (fun _ => true)
                    (fun _ => ret (Some (strip (py_str raw))))
    else ret None
  else ret None.

(** The student part of the loop body: insert a new student, or set the hash
    (and the name with it) of an existing one that has none. *)
Definition upsert_student_doc (reg : string) (student_name dob : option string) : M unit :=
  fun d =>
    match find_one (has_register_number reg) (students d) with
    | None =>
        (dob_hash <- (if truthy dob
                      then h <- hashpw_fresh (match dob with Some t => t | None => "" end) ;;
                           ret (Some h)
                      else ret None) ;;
         created_at <- now ;;
         insert_student (mkStudent reg (of_option student_name) (of_option dob_hash) created_at)) d
    | Some existing =>
        if truthy dob && negb (truthy (get (s_dob_hash existing)))
        then
          (dob_hash <- hashpw_fresh (match dob with Some t => t | None => "" end) ;;
           modify (fun d' =>
             set_students
               (update_one (has_register_number reg)
                  (fun s => mkStudent (s_register_number s) (of_option student_name)
                                      (Text dob_hash) (s_created_at s))
                  (students d')) d')) d
        else Done tt d
    end.

(** The body of the [try] of the loop. *)
Definition import_row (colmap : list (string * string)) (row : string -> cell) : M row_status :=
  reg_cell <- row_at colmap row "register_number" ;;
  subject_cell <- row_at colmap row "subject_code" ;;
  marks_val <- row_at colmap row "marks" ;;
  let reg := strip (py_str reg_cell) in
  let subject := strip (py_str subject_cell) in
  if (reg =? "") || isna marks_val
  then ret LacksRequired
  else
    dob <- optional_date colmap row "dob" ;;
    student_name <- optional_text colmap row "student_name" ;;
    subject_name <- optional_text colmap row "subject_name" ;;
    exam_date <- optional_date colmap row "exam_date" ;;
    upsert_student_doc reg student_name dob ;;;
    value <- convert (py_float marks_val) ;;
    uploaded_at <- now ;;
    insert_mark (mkMark reg subject value "migration-script" uploaded_at Absent
                        (of_option subject_name) (of_option exam_date)) ;;;
    ret Inserted.

(** [int(idx) + 2] for the row at position [pos].  Where [int] raises, it
    does so in the handler of the loop, also for a row that lacks a required
    value (there first inside the [try], whose handler evaluates it again): the
    exception leaves [import_marks_file].  It is given as [ValueError], what
    [int] raises on a text that is no numeral. *)
Definition row_number (int_idx : nat -> option Z) (pos : nat) : M Z :=
  n <- convert (int_idx pos) ;;
  ret (n + 2)%Z.

(** The loop over [df.iterrows()]: [pos] is the position of the row, whose
    index label is read through [int_idx]; [errors] is the list so far. *)
Fixpoint import_rows (colmap : list (string * string)) (int_idx : nat -> option Z)
    (pos : nat) (todo : list (string -> cell)) (inserted : nat)
    (errors : list import_error) : M (nat * list import_error) :=
  match todo with
  | [] => ret (inserted, errors)
  | row :: rest =>
      ended <- try_except (status <- import_row colmap row ;; ret (inl status))
                          (fun _ => true)
                          (fun e => ret (inr e)) ;;
      match ended with
      | inl Inserted => import_rows colmap int_idx (S pos) rest (S inserted) errors
      | inl LacksRequired =>
          line <- row_number int_idx pos ;;
          import_rows colmap int_idx (S pos) rest inserted
                      (errors ++ [RowError line MissingRequired])
      | inr e =>
          line <- row_number int_idx pos ;;
          import_rows colmap int_idx (S pos) rest inserted
                      (errors ++ [RowError line (Message e)])
      end
  end.

(** The first of the required columns that [colmap] lacks. *)
Definition first_missing (colmap : list (string * string)) : option string :=
  find (fun r => negb (in_colmap r colmap)) ["register_number"; "subject_code"; "marks"].

(** The reader of [import_marks_file]. *)
Definition read_import (filepath : string) (sheet : option string) (bytes : content)
    : import_result + workbook cell :=
  let ext := splitext_ext (lower filepath) in
  if mem ext [".xlsx"; ".xls"]
  then
    match read_excel (match sheet with Some s => Sheet s | None => EverySheet end) bytes with
    | Some wb => inr wb
    | None => inl ReadError
    end
  else if ext =? ".csv"
  then
    match read_csv bytes with
    | Some df => inr (OneSheet df)
    | None => inl ReadError
    end
  else inl UnsupportedExtension.

(** [import_marks_file(db, filepath, sheet_name)]: [file] holds the bytes at
    [filepath], [None] when no such file exists. *)
Definition import_marks_file (filepath : string) (file : option content)
    (sheet : option string) : M import_result :=
  match file with
  | None => ret FileNotFound
  | Some bytes =>
      match read_import filepath sheet bytes with
      | inl failed => ret failed
      | inr (AllSheets _) => raise AttributeError
      | inr (OneSheet df) =>
          if empty df then ret (Imported 0 [EmptyFile])
          else
            let colmap := normalize_columns (columns df) in
            match first_missing colmap with
            | Some r => ret (MissingColumn r)
            | None =>
                done <- import_rows colmap (int_idx df) 0 (rows df) 0 [] ;;
                ret (Imported (fst done) (snd done))
            end
      end
  end.

End Importing.

Section Admin.
Context {P : Platform}.
Open Scope monad_scope.

Definition DEFAULT_ADMIN_EMAIL : string := "admin@example.com".
Definition DEFAULT_ADMIN_PASSWORD : string := "admin123".

(** [create_admin_if_missing(db, email, password)] on the staff collection:
    the collection it leaves, and the credentials it returns ([None] when the
    user exists). *)
Definition create_admin_if_missing (staff : list staff_user) (email : string)
    (password : option string) : M (list staff_user * option (string * string)) :=
  match find_one (fun u => f_email u =? email) staff with
  | Some _ => ret (staff, None)
  | None =>
      let password := if truthy password
                      then match password with Some p => p | None => "" end
                      else DEFAULT_ADMIN_PASSWORD in
      hashed <- hashpw_fresh password ;;
      created_at <- now ;;
      ret (staff ++ [mkStaff email (Text hashed) (Text "admin") created_at],
           Some (email, password))
  end.

End Admin.
End Migrate.

(* ------------------------------------------------------------------ *)
(** ** backend/models.py *)

Module Models.
Section Helpers.
Context {P : Platform}.
Open Scope monad_scope.

Definition hash_text (text : string) : M string := hashpw_fresh text.

(** [verify_hash]: false for an empty or missing hash. *)
Definition verify_hash (text : string) (hashed : option string) : M bool :=
  if negb (truthy hashed) then ret false
  else
    match hashed with
    | Some h => convert (checkpw text h)
    | None => ret false
    end.

(** [upsert_student(students_col, register_number, dob)]; the document id it
    returns is not kept. *)
Definition upsert_student (register_number : string) (dob : option string) : M unit :=
  fun d =>
    match find_one (has_register_number register_number) (students d) with
    | Some existing =>
        if truthy dob
        then
          (dob_hash <- hash_text (match dob with Some t => t | None => "" end) ;;
           modify (fun d' =>
             set_students
               (update_one (has_register_number register_number)
                  (fun s => mkStudent (s_register_number s) (s_student_name s)
                                      (Text dob_hash) (s_created_at s))
                  (students d')) d')) d
        else Done tt d
    | None =>
        (dob_hash <- (if truthy dob
                      then h <- hash_text (match dob with Some t => t | None => "" end) ;;
                           ret (Some h)
                      else ret None) ;;
         created_at <- now ;;
         insert_student (mkStudent register_number Absent (of_option dob_hash) created_at)) d
    end.

End Helpers.

Section Collections.
Context {P : Platform}.
Open Scope monad_scope.


(** [insert_mark(marks_col, register_number, subject, marks, uploaded_by)] *)
Definition insert_mark (register_number subject : string) (value : num)
    (uploaded_by : string) : M unit :=
  uploaded_at <- now ;;
  insert_mark (mkMark register_number subject value uploaded_by uploaded_at Absent Absent Absent).

(** [get_marks_for_student(marks_col, register_number)] *)
Definition get_marks_for_student (register_number : string) : M (list mark) :=
  fun d => Done (filter (fun m => m_register_number m =? register_number) (marks d)) d.

End Collections.
End Models.

(* ------------------------------------------------------------------ *)
(** ** A small platform to run the handlers on *)

(** Cells, numbers and library functions cut down to what the examples below
    read: text and whole-number cells, dates written [YYYY-MM-DD], salts and
    hashes that keep the text in clear.  On the inputs of the examples each
    function answers as the library does. *)
Module Demo.

Inductive demo_cell : Type :=
| NaN
| Number (n : nat)
| Str (s : string).

Inductive demo_num : Type :=
| NotANumber
| Value (n : nat).

Definition is_digit (c : ascii) : bool :=
  let n := nat_of_ascii c in (48 <=? n)%nat && (n <=? 57)%nat.

Fixpoint digits_value (s : string) (acc : nat) : option nat :=
  match s with
  | EmptyString => Some acc
  | String c rest =>
      if is_digit c then digits_value rest (10 * acc + (nat_of_ascii c - 48)) else None
  end.

(** [float(s)] on the decimal numerals without sign, point or exponent. *)
Definition parse_number (s : string) : option demo_num :=
  let t := strip s in
  if nonempty t then option_map Value (digits_value t 0) else None.

Fixpoint decimal_fuel (fuel n : nat) (acc : string) : string :=
  match fuel with
  | 0 => acc
  | S fuel' =>
      let acc' := String (ascii_of_nat (48 + n mod 10)) acc in
      if (n <? 10)%nat then acc' else decimal_fuel fuel' (n / 10) acc'
  end.

(** [str(n)] *)
Definition decimal (n : nat) : string := decimal_fuel (S n) n "".

Definition char_at (i : nat) (s : string) : ascii :=
  match String.get i s with
  | Some c => c
  | None => zero
  end.

(** The texts [YYYY-MM-DD]. *)
Definition is_iso_date (s : string) : bool :=
  (String.length s =? 10)%nat &&
  forallb (fun i => is_digit (char_at i s)) [0; 1; 2; 3; 5; 6; 8; 9] &&
  forallb (fun i => (char_at i s =? "-")%char) [4; 7].

Definition demo_str (c : demo_cell) : string :=
  match c with
  | NaN => "nan"
  | Number n => decimal n
  | Str s => s
  end.

Definition demo_float (c : demo_cell) : option demo_num :=
  match c with
  | NaN => Some NotANumber
  | Number n => Some (Value n)
  | Str s => parse_number s
  end.

Definition demo_date (c : demo_cell) : option string :=
  match c with
  | Str s => if is_iso_date (strip s) then Some (strip s) else None
  | Number _ => Some "1970-01-01"
  | NaN => None
  end.

Definition demo_salt (n : nat) : string := "$2b$12$salt" ++ decimal n ++ "$".

Definition demo_hashpw (text salt : string) : string := salt ++ text.

(** The character that stands for a lone surrogate, which a Python text can
    hold and [str.encode] raises on. *)
Definition lone_surrogate : ascii := "255"%char.

Fixpoint unencodable (s : string) : bool :=
  match s with
  | EmptyString => false
  | String c rest => (c =? lone_surrogate)%char || unencodable rest
  end.

(** A hash is checked by its tail; a text that cannot be encoded raises, and
    so does a text that is no hash. *)
Definition demo_checkpw (text hashed : string) : option bool :=
  if unencodable text then None
  else if prefix "$2b$12$" hashed then Some (endswith hashed ("$" ++ text)) else None.

(** Blanks become underscores; the other characters of the examples are
    kept by [secure_filename]. *)
Fixpoint demo_secure_filename (s : string) : string :=
  match s with
  | EmptyString => EmptyString
  | String c rest =>
      String (if (c =? " ")%char then "_"%char else c) (demo_secure_filename rest)
  end.

(** The extension: the text from the last dot on, when a dot follows the
    first character. *)
Fixpoint last_dot (s : string) (i : nat) (found : option nat) : option nat :=
  match s with
  | EmptyString => found
  | String c rest =>
      last_dot rest (S i) (if (c =? ".")%char && (0 <? i)%nat then Some i else found)
  end.

Definition demo_ext (s : string) : string :=
  match last_dot s 0 None with
  | Some i => substring i (String.length s - i) s
  | None => ""
  end.

#[export] Instance platform : Platform := {|
  cell := demo_cell;
  num := demo_num;
  content := option (frame demo_cell);
  isna := fun c => match c with NaN => true | _ => false end;
  py_str := demo_str;
  py_float := demo_float;
  to_datetime_iso := demo_date;
  gensalt := demo_salt;
  hashpw := demo_hashpw;
  checkpw := demo_checkpw;
  utcnow := fun n => 1000 + n;
  secure_filename := demo_secure_filename;
  splitext_ext := demo_ext;
  read_csv := fun bytes => bytes;
  read_excel := fun sheet bytes =>
    match sheet with
    | EverySheet => option_map (fun df => AllSheets [("Sheet1", df)]) bytes
    | _ => option_map OneSheet bytes
    end;
|}.

(** A row given by its cells; a label it lacks reads as missing. *)
Definition series (cells : list (string * demo_cell)) : string -> demo_cell :=
  fun label =>
    match find (fun kv => fst kv =? label) cells with
    | Some kv => snd kv
    | None => NaN
    end.

(** A database with no document, with or without the unique index on marks. *)
Definition empty_db (unique : bool) : @db platform := mkDb [] [] [] [] unique 0 0.

(** A token that keeps its claims in clear: a letter for the role, the
    expiry in decimal, the secret and the email, with colons between. *)
Definition demo_role_tag (role : option string) : string :=
  match role with
  | Some r => if r =? "admin" then "a" else if r =? "staff" then "s" else "o"
  | None => "n"
  end.

Definition demo_jwt_encode (claims : payload) (secret : string) : string :=
  demo_role_tag (p_role claims) ++ decimal (p_exp claims) ++ ":" ++ secret ++ ":"
  ++ p_email claims.

Definition demo_tag_role (tag : ascii) : option (option string) :=
  if (tag =? "a")%char then Some (Some "admin")
  else if (tag =? "s")%char then Some (Some "staff")
  else if (tag =? "n")%char then Some None
  else None.

(** The signature check is the comparison of the secret; a token is
    expired from its expiry time on. *)
Definition demo_jwt_decode (token secret : string) (at_ : nat) : jwt_result :=
  match token with
  | EmptyString => InvalidTokenError
  | String tag rest =>
      match demo_tag_role tag, index 0 ":" rest with
      | Some role, Some i =>
          match digits_value (substring 0 i rest) 0 with
          | Some exp =>
              let signed := substring (S i) (String.length rest - S i) rest in
              if prefix (secret ++ ":") signed
              then
                if (exp <=? at_)%nat then ExpiredSignatureError
                else Valid (mkPayload
                              (substring (S (String.length secret))
                                         (String.length signed - S (String.length secret))
                                         signed)
                              role exp)
              else InvalidTokenError
          | None => InvalidTokenError
          end
      | _, _ => InvalidTokenError
      end
  end.

#[export] Instance host : Host := {|
  JWT_SECRET := "s3cret";
  JWT_EXP_HOURS := 6;
  timedelta_hours := fun n => n;
  jwt_encode := demo_jwt_encode;
  jwt_decode := demo_jwt_decode;
  getsize := fun name => 100 * String.length name;
  getmtime := fun _ => 1000;
|}.

End Demo.

(* ------------------------------------------------------------------ *)
(** ** Vocabulary of the properties *)

Section Vocabulary.
Context {P : Platform}.

(** What a handler answered, [None] when it raised. *)
Definition answer {A : Type} (o : outcome A) : option A :=
  match o with
  | Done a _ => Some a
  | Raised _ _ => None
  end.

(** A computation relates every database to the one it leaves, raising or
    not. *)
Definition preserves {A : Type} (R : db -> db -> Prop) (c : M A) : Prop :=
  forall d, R d (final (c d)).

(** The three collections hold the same documents. *)
Definition same_collections (d d' : db) : Prop :=
  students d' = students d /\ marks d' = marks d /\ uploads d' = uploads d.

Definition same_students (d d' : db) : Prop := students d' = students d.

(** The marks and their index are the same. *)
Definition same_marks (d d' : db) : Prop :=
  marks d' = marks d /\ marks_unique d' = marks_unique d.

(** The key of a mark. *)
Definition key (m : mark) : string * string := (m_register_number m, m_subject_code m).

(** No two marks of the collection share their key. *)
Definition unique_pairs (l : list mark) : Prop := NoDup (map key l).

(** Every student found before is found after, with the hash it had. *)
Definition keeps_hashes (d d' : db) : Prop :=
  forall reg s,
    find_one (has_register_number reg) (students d) = Some s ->
    exists s',
      find_one (has_register_number reg) (students d') = Some s' /\
      s_dob_hash s' = s_dob_hash s.

(** Every student found before with a hash that is set is found after, with
    that hash. *)
Definition keeps_set_hashes (d d' : db) : Prop :=
  forall reg s,
    find_one (has_register_number reg) (students d) = Some s ->
    truthy (get (s_dob_hash s)) = true ->
    exists s',
      find_one (has_register_number reg) (students d') = Some s' /\
      s_dob_hash s' = s_dob_hash s.

(** Unique keys stay unique. *)
Definition keeps_unique (d d' : db) : Prop :=
  unique_pairs (marks d) -> unique_pairs (marks d').

(** Under the unique index, unique keys stay unique and the index stays. *)
Definition keeps_unique_indexed (d d' : db) : Prop :=
  marks_unique d = true /\ unique_pairs (marks d) ->
  marks_unique d' = true /\ unique_pairs (marks d').

(** An upload through the service or an import by the migration script. *)
Inductive operation : Type :=
| Upload (file : option (string * content)) (email : string)
| Import (filepath : string) (file : option content) (sheet : option string).

Definition is_upload (op : operation) : bool :=
  match op with
  | Upload _ _ => true
  | Import _ _ _ => false
  end.

(** The database an operation leaves. *)
Definition run (d : db) (op : operation) : db :=
  match op with
  | Upload file email => final (App.upload_marks file email d)
  | Import filepath file sheet => final (Migrate.import_marks_file filepath file sheet d)
  end.

Definition run_all (ops : list operation) (d : db) : db := fold_left run ops d.

End Vocabulary.

(* ------------------------------------------------------------------ *)
(** ** Example data *)

Module Examples.
Import Demo.

Definition header : list string :=
  ["Register_Number"; "Subject_Code"; "Marks"; "Student_Name"; "DOB"].

Definition alice_math : string -> demo_cell :=
  series [("Register_Number", Str "REG1"); ("Subject_Code", Str "MATH101");
          ("Marks", Number 88); ("Student_Name", Str "Alice"); ("DOB", Str "2005-01-01")].

Definition alice_phys : string -> demo_cell :=
  series [("Register_Number", Str "REG1"); ("Subject_Code", Str "PHYS101");
          ("Marks", Number 91); ("Student_Name", Str "Alice"); ("DOB", Str "2005-01-01")].

(** A row whose marks are no number. *)
Definition bad_marks : string -> demo_cell :=
  series [("Register_Number", Str "REG2"); ("Subject_Code", Str "MATH101");
          ("Marks", Str "abc"); ("Student_Name", Str "Bob"); ("DOB", Str "2004-03-02")].

(** A row whose date of birth is no date. *)
Definition bad_dob : string -> demo_cell :=
  series [("Register_Number", Str "REG3"); ("Subject_Code", Str "MATH101");
          ("Marks", Number 70); ("Student_Name", Str "Carol"); ("DOB", Str "not-a-date")].

(** The two rows of the end-to-end example of the specification. *)
Definition alice_file : frame demo_cell := mkFrame header [alice_math; alice_phys] range_index.

Definition one_row_file : frame demo_cell := mkFrame header [alice_math] range_index.

(** The first row as pandas reads it beside a text in the marks column. *)
Definition alice_math_text : string -> demo_cell :=
  series [("Register_Number", Str "REG1"); ("Subject_Code", Str "MATH101");
          ("Marks", Str "88"); ("Student_Name", Str "Alice"); ("DOB", Str "2005-01-01")].

Definition bad_marks_file : frame demo_cell := mkFrame header [bad_marks; alice_math_text] range_index.

Definition bad_dob_file : frame demo_cell := mkFrame header [bad_dob; alice_math] range_index.

(** A later sheet for REG1 with neither name nor date of birth. *)
Definition bare_header : list string := ["register_number"; "subject_code"; "marks"].

Definition alice_chem : string -> demo_cell :=
  series [("register_number", Str "REG1"); ("subject_code", Str "CHEM101");
          ("marks", Number 75)].

Definition bare_file : frame demo_cell := mkFrame bare_header [alice_chem] range_index.

(** A sheet with a header and no row, lacking the marks column. *)
Definition header_only_file : frame demo_cell :=
  mkFrame ["register_number"; "subject_code"] [] range_index.

(** A sheet with a row, lacking the marks column. *)
Definition no_marks_column_file : frame demo_cell :=
  mkFrame ["register_number"; "subject_code"]
          [series [("register_number", Str "REG1"); ("subject_code", Str "MATH101")]]
          range_index.

Definition staff : string := "staff@example.com".

(** The database after the end-to-end upload. *)
Definition after_alice : @db platform :=
  final (App.upload_marks (Some ("marks.csv", Some alice_file)) staff (empty_db true)).

(** The database after an upload named with a blank. *)
Definition after_blank_name : @db platform :=
  final (App.upload_marks (Some ("term 1.csv", Some one_row_file)) staff (empty_db true)).

(** The database after an upload that carried no date of birth. *)
Definition after_bare : @db platform :=
  final (App.upload_marks (Some ("later.csv", Some bare_file)) staff (empty_db true)).

(** One import of the one-row sheet, and the same import again. *)
Definition import_once : @operation platform :=
  Import "marks.csv" (Some (Some one_row_file)) None.

End Examples.

(* ------------------------------------------------------------------ *)
(** ** Further vocabulary and example data *)

(** A text that is empty or starts with a character that is no blank. *)
Definition head_ok (s : string) : Prop :=
  match s with
  | EmptyString => True
  | String c _ => isspace c = false
  end.

(** Every row of the frame has an index label that [int] converts, as under
    the index pandas gives by default. *)
Definition numbered {C : Type} (df : frame C) : Prop :=
  forall i, (i < List.length (rows df))%nat -> int_idx df i <> None.


Section FurtherVocabulary.
Context {P : Platform}.

(** A computation whose every run ends in a database related by [R] to the
    one it met, and, when it returns, in one that [S] relates to it for the
    value returned. *)
Definition ends {A : Type} (R : db -> db -> Prop) (S : A -> db -> db -> Prop) (c : M A)
    : Prop :=
  forall d,
    match c d with
    | Done a d' => S a d d'
    | Raised _ d' => R d d'
    end.

(** The uploads and the stored files are the same. *)
Definition same_uploads (d d' : db) : Prop :=
  uploads d' = uploads d /\ files d' = files d.

(** Every student found before with a hash that is set is found after,
    the whole document as it was. *)
Definition keeps_set_students (d d' : db) : Prop :=
  forall reg s,
    find_one (has_register_number reg) (students d) = Some s ->
    truthy (get (s_dob_hash s)) = true ->
    find_one (has_register_number reg) (students d') = Some s.

(** A mark as the migration script writes it. *)
Definition imported (m : mark) : Prop :=
  m_source_file m = Absent /\ m_uploaded_by m = "migration-script".

(** What the marks are after a turn of the import loop, by how the body ended. *)
Definition after_import_row (status : row_status) (d d' : db) : Prop :=
  marks_unique d' = marks_unique d /\
  match status with
  | Inserted => exists m, marks d' = marks d ++ [m] /\ imported m
  | LacksRequired => marks d' = marks d
  end.

(** The row raises nothing in [upload_row]: it is skipped, or its date of
    birth and its marks convert. *)
Definition converts (cols : list string) (row : string -> cell) : bool :=
  App.skipped cols row
  || (match App.row_dob cols row with Some _ => true | None => false end
      && match App.float_get (App.row_marks cols row) with Some _ => true | None => false end).

(** The rows that [upload_marks] does not skip. *)
Definition kept_rows (cols : list string) (todo : list (string -> cell))
    : list (string -> cell) :=
  filter (fun row => negb (App.skipped cols row)) todo.

End FurtherVocabulary.

Module MoreExamples.
Import Demo Examples.

(** A staff collection with one user, as [create_staff_user] leaves it. *)
Definition one_staff : list staff_user :=
  [mkStaff "staff@example.com" (Text "$2b$12$salt0$pass-1") (Text "staff") 1000].

(** The token [login] issues to that user at the first reading of the clock. *)
Definition staff_token : string :=
  demo_jwt_encode (mkPayload "staff@example.com" (Some "staff") 1006) "s3cret".

Definition admin_token : string :=
  demo_jwt_encode (mkPayload "admin@example.com" (Some "admin") 1006) "s3cret".

(** A sheet whose second row is skipped: it has no subject code. *)
Definition no_subject : string -> demo_cell :=
  series [("Register_Number", Str "REG4"); ("Subject_Code", Str "  ");
          ("Marks", Number 55); ("Student_Name", Str "Dan"); ("DOB", Str "2005-06-07")].

Definition mixed_file : frame demo_cell :=
  mkFrame header [alice_math; no_subject; alice_phys] range_index.

(** A sheet whose second row has marks that are no number. *)
Definition late_failure_file : frame demo_cell :=
  mkFrame header [alice_math; bad_marks; alice_phys] range_index.

(** The sheet with a failing row, read with an index of its own whose
    labels are texts that are no numerals. *)
Definition text_index_file : frame demo_cell :=
  mkFrame header [bad_marks; alice_math_text] (fun _ => None).

(** A later sheet that gives REG1 another date of birth. *)
Definition alice_other_dob : string -> demo_cell :=
  series [("Register_Number", Str "REG1"); ("Subject_Code", Str "MATH101");
          ("Marks", Number 90); ("Student_Name", Str "Alice"); ("DOB", Str "2006-02-02")].

Definition other_dob_file : frame demo_cell :=
  mkFrame header [alice_other_dob] range_index.

(** A text that cannot be encoded. *)
Definition unencodable_text : string := String lone_surrogate "".

(** A staff collection whose only user was stored with capitals in the email. *)
Definition capital_staff : list staff_user :=
  [mkStaff "Staff@Example.com" (Text "$2b$12$salt0$pass-1") (Text "staff") 1000].

End MoreExamples.

(* ------------------------------------------------------------------ *)
(** ** Properties *)

(** *** Computations that keep a relation *)

Section Preserving.
Context {P : Platform}.
Variable R : db -> db -> Prop.
Hypothesis R_refl : forall d, R d d.
Hypothesis R_trans : forall a b c, R a b -> R b c -> R a c.

Lemma final_bind {A B : Type} (c : M A) (k : A -> M B) (d : db) :
  final (bind c k d) =
  match c d with
  | Done a d' => final (k a d')
  | Raised _ d' => d'
  end.
Proof. unfold bind. destruct (c d); reflexivity. Qed.

Lemma preserves_ret {A : Type} (a : A) : preserves R (ret a).
Proof. intro d. apply R_refl. Qed.

Lemma preserves_raise {A : Type} (e : exn) : preserves R (@raise P A e).
Proof. intro d. apply R_refl. Qed.

Lemma preserves_convert {A : Type} (v : option A) : preserves R (convert v).
Proof. destruct v; [apply preserves_ret | apply preserves_raise]. Qed.

Lemma preserves_bind {A B : Type} (c : M A) (k : A -> M B) :
  preserves R c -> (forall a, preserves R (k a)) -> preserves R (bind c k).
Proof.
  intros Hc Hk d. rewrite final_bind.
  specialize (Hc d). destruct (c d) as [a d' | e d']; simpl in Hc.
  - eapply R_trans; [exact Hc | apply Hk].
  - exact Hc.
Qed.

Lemma preserves_try_except {A : Type} (c : M A) (catches : exn -> bool) (h : exn -> M A) :
  preserves R c -> (forall e, preserves R (h e)) -> preserves R (try_except c catches h).
Proof.
  intros Hc Hh d. unfold try_except.
  specialize (Hc d). destruct (c d) as [a d' | e d']; simpl in Hc.
  - exact Hc.
  - destruct (catches e); [eapply R_trans; [exact Hc | apply Hh] | exact Hc].
Qed.

Lemma preserves_if {A : Type} (b : bool) (c1 c2 : M A) :
  preserves R c1 -> preserves R c2 -> preserves R (if b then c1 else c2).
Proof. destruct b; auto. Qed.

End Preserving.

(** Splits a computation along its binds, handlers and branches. *)
Ltac preserve_step refl trans :=
  first
    [ apply (preserves_bind _ trans); [ | intro ]
    | apply (preserves_try_except _ trans); [ | intro ]
    | apply (preserves_ret _ refl)
    | apply (preserves_raise _ refl)
    | apply (preserves_convert _ refl)
    | apply preserves_if ].

Section Relations.
Context {P : Platform}.

Lemma same_collections_refl (d : db) : same_collections d d.
Proof. repeat split. Qed.

Lemma same_collections_trans (a b c : db) :
  same_collections a b -> same_collections b c -> same_collections a c.
Proof.
  unfold same_collections. intros (H1 & H2 & H3) (H4 & H5 & H6).
  repeat split; congruence.
Qed.

Lemma same_students_refl (d : db) : same_students d d.
Proof. reflexivity. Qed.

Lemma same_students_trans (a b c : db) :
  same_students a b -> same_students b c -> same_students a c.
Proof. unfold same_students. congruence. Qed.

Lemma same_marks_refl (d : db) : same_marks d d.
Proof. split; reflexivity. Qed.

Lemma same_marks_trans (a b c : db) :
  same_marks a b -> same_marks b c -> same_marks a c.
Proof. unfold same_marks. intros [H1 H2] [H3 H4]. split; congruence. Qed.

Lemma keeps_hashes_refl (d : db) : keeps_hashes d d.
Proof. intros reg s H. exists s. auto. Qed.

Lemma keeps_hashes_trans (a b c : db) :
  keeps_hashes a b -> keeps_hashes b c -> keeps_hashes a c.
Proof.
  intros Hab Hbc reg s H.
  destruct (Hab reg s H) as (s' & H' & E').
  destruct (Hbc reg s' H') as (s'' & H'' & E'').
  exists s''. split; [exact H'' | congruence].
Qed.

Lemma keeps_set_hashes_refl (d : db) : keeps_set_hashes d d.
Proof. intros reg s H _. exists s. auto. Qed.

Lemma keeps_set_hashes_trans (a b c : db) :
  keeps_set_hashes a b -> keeps_set_hashes b c -> keeps_set_hashes a c.
Proof.
  intros Hab Hbc reg s H T.
  destruct (Hab reg s H T) as (s' & H' & E').
  assert (T' : truthy (get (s_dob_hash s')) = true) by (rewrite E'; exact T).
  destruct (Hbc reg s' H' T') as (s'' & H'' & E'').
  exists s''. split; [exact H'' | congruence].
Qed.

Lemma keeps_hashes_set (a b : db) : keeps_hashes a b -> keeps_set_hashes a b.
Proof. intros H reg s F _. exact (H reg s F). Qed.

Lemma keeps_unique_refl (d : db) : keeps_unique d d.
Proof. intro H. exact H. Qed.

Lemma keeps_unique_trans (a b c : db) :
  keeps_unique a b -> keeps_unique b c -> keeps_unique a c.
Proof. unfold keeps_unique. auto. Qed.

Lemma keeps_unique_indexed_refl (d : db) : keeps_unique_indexed d d.
Proof. intro H. exact H. Qed.

Lemma keeps_unique_indexed_trans (a b c : db) :
  keeps_unique_indexed a b -> keeps_unique_indexed b c -> keeps_unique_indexed a c.
Proof. unfold keeps_unique_indexed. auto. Qed.

End Relations.

(** *** Missing columns *)

Section MissingColumns.
Context {P : Platform}.

Lemma in_colmap_normalized (r : string) (cols : list string) :
  Migrate.in_colmap r (Migrate.normalize_columns cols) = mem r (App.normalized cols).
Proof.
  unfold Migrate.in_colmap, Migrate.normalize_columns, mem, App.normalized.
  induction cols as [| c cols IH]; simpl; [reflexivity |].
  rewrite IH, (String.eqb_sym r). reflexivity.
Qed.

Lemma first_missing_issubset (cols : list string) :
  App.issubset App.required (App.normalized cols) = false ->
  exists r, Migrate.first_missing (Migrate.normalize_columns cols) = Some r.
Proof.
  unfold App.issubset, App.required, Migrate.first_missing. simpl.
  rewrite !in_colmap_normalized.
  destruct (mem "register_number" (App.normalized cols)); simpl; [| eauto].
  destruct (mem "subject_code" (App.normalized cols)); simpl; [| eauto].
  destruct (mem "marks" (App.normalized cols)); simpl; [discriminate | eauto].
Qed.

Lemma save_same_collections (filename : string) (d : db) :
  same_collections d (final (App.save filename d)).
Proof.
  unfold App.save, modify. simpl.
  destruct (mem filename (files d)); repeat split.
Qed.

(** C4, as amended: a file that lacks one of the columns register_number,
    subject_code, marks writes nothing to the students, marks and uploads
    collections.  The upload answers with the missing-columns error; the import
    answers with the missing-column error when the file has a row, and
    reports an empty file when it has none. *)
Theorem missing_column_rejected_without_writes (df : frame cell) (d : db) :
  App.issubset App.required (App.normalized (columns df)) = false ->
  (forall name bytes email,
      nonempty name = true ->
      App.allowed_file name = true ->
      App.read_upload (secure_filename name) bytes = Some (OneSheet df) ->
      exists d',
        App.upload_marks (Some (name, bytes)) email d
        = Done (Error "Missing required columns", 400) d' /\
        same_collections d d') /\
  (forall filepath bytes sheet,
      Migrate.read_import filepath sheet bytes = inr (OneSheet df) ->
      exists r,
        Migrate.first_missing (Migrate.normalize_columns (columns df)) = Some r /\
        Migrate.import_marks_file filepath (Some bytes) sheet d
        = Done (if empty df then Imported 0 [EmptyFile] else MissingColumn r) d).
Proof.
  intro Hlack. split.
  - intros name bytes email Hname Hallowed Hread.
    exists (final (App.save (secure_filename name) d)). split.
    + unfold App.upload_marks. rewrite Hname, Hallowed.
      unfold bind, App.save, modify. cbv beta iota.
      rewrite Hread, Hlack. reflexivity.
    + apply save_same_collections.
  - intros filepath bytes sheet Hread.
    destruct (first_missing_issubset _ Hlack) as [r Hr].
    exists r. split; [exact Hr |].
    unfold Migrate.import_marks_file. rewrite Hread.
    destruct (empty df); [reflexivity |].
    rewrite Hr. reflexivity.
Qed.

End MissingColumns.

(** *** Deleting an upload *)

Section Delete.
Context {P : Platform}.

Lemma delete_many_In {A : Type} (p : A -> bool) (l : list A) (x : A) :
  In x (delete_many p l) <-> In x l /\ p x = false.
Proof.
  unfold delete_many. rewrite filter_In.
  destruct (p x); simpl; intuition congruence.
Qed.

Lemma field_eqb_eq (a b : field) : field_eqb a b = true <-> a = b.
Proof.
  destruct a, b; simpl; try (split; [discriminate | congruence]);
    try (split; reflexivity).
  rewrite String.eqb_eq. split; congruence.
Qed.

(** C5, as amended: the delete handler works on the sanitised filename.
    When that name is not empty it removes exactly the marks whose source_file
    is the sanitised name, in place; it removes the first upload document of
    that name; the students are left as they were. *)
Theorem delete_upload_removes_marks_of_file (filename : string) (d : db) :
  nonempty (secure_filename filename) = true ->
  exists d',
    App.delete_upload filename d = Done (Deleted, 200) d' /\
    marks d' = filter (fun m => negb (field_eqb (m_source_file m)
                                                (Text (secure_filename filename))))
                      (marks d) /\
    (forall m, In m (marks d') <->
               In m (marks d) /\ m_source_file m <> Text (secure_filename filename)) /\
    uploads d' = delete_one (fun u => u_filename u =? secure_filename filename) (uploads d) /\
    students d' = students d.
Proof.
  intro Hname. unfold App.delete_upload. rewrite Hname. simpl.
  eexists. split; [reflexivity |]. simpl.
  split; [reflexivity |]. split; [| split; reflexivity].
  intro m. rewrite delete_many_In.
  split; intros [Hin Hm]; split; try exact Hin.
  - intro E. apply field_eqb_eq in E. congruence.
  - destruct (field_eqb (m_source_file m) (Text (secure_filename filename))) eqn:E;
      [| reflexivity].
    apply field_eqb_eq in E. contradiction.
Qed.

End Delete.

(** *** Looking a student up *)

Section Lookup.
Context {P : Platform}.

(** When the check of the date of birth returns false, the answer is the
    answer given when no student has the register number: the same body and
    the same status 401.  Nothing is said here of a check that raises. *)
Lemma lookup_hides_cause_of_failure (register_number dob : string) (d1 d2 : db)
    (s : student) :
  nonempty (strip register_number) = true ->
  nonempty (strip dob) = true ->
  find_one (has_register_number (strip register_number)) (students d1) = None ->
  find_one (has_register_number (strip register_number)) (students d2) = Some s ->
  answer (App.verify_hash (strip dob) (get_default (s_dob_hash s)) d2) = Some false ->
  answer (App.lookup register_number dob d1) = answer (App.lookup register_number dob d2) /\
  answer (App.lookup register_number dob d2) = Some (Error "Invalid details", 401).
Proof.
  intros Hreg Hdob Hnone Hsome Hverify.
  unfold App.lookup. rewrite Hreg, Hdob. simpl.
  rewrite Hnone, Hsome. unfold bind.
  destruct (App.verify_hash (strip dob) (get_default (s_dob_hash s)) d2) as [b d' | e d'];
    simpl in Hverify; [| discriminate].
  injection Hverify as ->. simpl. split; reflexivity.
Qed.

(** C10: a student whose stored hash is null or absent is never
    authenticated, whatever date of birth the request supplies; both
    [verify_hash] helpers answer false, without raising, on a hash that is
    [None] or empty. *)
Theorem lookup_fails_without_stored_hash (register_number dob : string) (d : db)
    (s : student) :
  nonempty (strip register_number) = true ->
  nonempty (strip dob) = true ->
  find_one (has_register_number (strip register_number)) (students d) = Some s ->
  s_dob_hash s = Null \/ s_dob_hash s = Absent ->
  App.lookup register_number dob d = Done (Error "Invalid details", 401) d /\
  (forall text d0,
      App.verify_hash text None d0 = Done false d0 /\
      App.verify_hash text (Some "") d0 = Done false d0 /\
      Models.verify_hash text None d0 = Done false d0 /\
      Models.verify_hash text (Some "") d0 = Done false d0).
Proof.
  intros Hreg Hdob Hsome Hhash. split.
  - unfold App.lookup. rewrite Hreg, Hdob. simpl. rewrite Hsome.
    destruct Hhash as [-> | ->]; reflexivity.
  - intros text d0. repeat split.
Qed.

End Lookup.

(** *** Collections *)

Section Collections.
Context {P : Platform}.

Lemma find_app {A : Type} (p : A -> bool) (l : list A) (x : A) :
  find p (l ++ [x]) =
  match find p l with
  | Some y => Some y
  | None => if p x then Some x else None
  end.
Proof.
  induction l as [| a l IH]; simpl; [reflexivity |].
  destruct (p a); [reflexivity | exact IH].
Qed.

Lemma existsb_find {A : Type} (p : A -> bool) (l : list A) :
  existsb p l = match find p l with Some _ => true | None => false end.
Proof.
  induction l as [| a l IH]; simpl; [reflexivity |].
  destruct (p a); [reflexivity | exact IH].
Qed.

Lemma find_update_one_same (reg : string) (f : student -> student) (l : list student) :
  (forall s, s_register_number (f s) = s_register_number s) ->
  find (has_register_number reg) (update_one (has_register_number reg) f l)
  = option_map f (find (has_register_number reg) l).
Proof.
  intro Hf. induction l as [| a l IH]; simpl; [reflexivity |].
  destruct (has_register_number reg a) eqn:E; simpl.
  - unfold has_register_number in *. rewrite Hf, E. reflexivity.
  - rewrite E. exact IH.
Qed.

Lemma find_update_one_other (reg reg0 : string) (f : student -> student)
    (l : list student) :
  (forall s, s_register_number (f s) = s_register_number s) ->
  reg <> reg0 ->
  find (has_register_number reg) (update_one (has_register_number reg0) f l)
  = find (has_register_number reg) l.
Proof.
  intros Hf Hne. induction l as [| a l IH]; simpl; [reflexivity |].
  destruct (has_register_number reg0 a) eqn:E; simpl.
  - unfold has_register_number in *. rewrite Hf.
    apply String.eqb_eq in E. rewrite E.
    destruct (String.eqb_spec reg0 reg); [congruence | reflexivity].
  - destruct (has_register_number reg a); [reflexivity | exact IH].
Qed.

(** An update that keeps register numbers and hashes keeps what every
    lookup by register number finds, up to the other fields. *)
Lemma update_one_keeps_hash (reg0 : string) (f : student -> student) (l : list student)
    (reg : string) (s : student) :
  (forall x, s_register_number (f x) = s_register_number x) ->
  (forall x, s_dob_hash (f x) = s_dob_hash x) ->
  find (has_register_number reg) l = Some s ->
  exists s',
    find (has_register_number reg) (update_one (has_register_number reg0) f l) = Some s' /\
    s_dob_hash s' = s_dob_hash s.
Proof.
  intros Hreg Hhash Hfind.
  destruct (String.eqb_spec reg reg0) as [-> | Hne].
  - rewrite find_update_one_same by exact Hreg. rewrite Hfind. simpl.
    exists (f s). split; [reflexivity | apply Hhash].
  - rewrite find_update_one_other by assumption. exists s. auto.
Qed.

Lemma upsert_keeps_hash (reg0 : string) (f : student -> student) (fresh : student)
    (l : list student) (reg : string) (s : student) :
  (forall x, s_register_number (f x) = s_register_number x) ->
  (forall x, s_dob_hash (f x) = s_dob_hash x) ->
  find (has_register_number reg) l = Some s ->
  exists s',
    find (has_register_number reg)
         (update_one_upsert (has_register_number reg0) f fresh l) = Some s' /\
    s_dob_hash s' = s_dob_hash s.
Proof.
  intros Hreg Hhash Hfind. unfold update_one_upsert.
  destruct (existsb (has_register_number reg0) l).
  - apply update_one_keeps_hash; assumption.
  - rewrite find_app, Hfind. exists s. auto.
Qed.

End Collections.

(** *** What each step leaves alone *)

Section Frames.
Context {P : Platform}.

Lemma preserves_weaken {A : Type} (R1 R2 : db -> db -> Prop) (c : M A) :
  (forall d d', R1 d d' -> R2 d d') -> preserves R1 c -> preserves R2 c.
Proof. intros H Hc d. apply H, Hc. Qed.

Lemma now_students : preserves same_students now.
Proof. intro d. reflexivity. Qed.

Lemma now_marks : preserves same_marks now.
Proof. intro d. split; reflexivity. Qed.

Lemma hashpw_fresh_students (text : string) : preserves same_students (hashpw_fresh text).
Proof. intro d. reflexivity. Qed.

Lemma hashpw_fresh_marks (text : string) : preserves same_marks (hashpw_fresh text).
Proof. intro d. split; reflexivity. Qed.

Lemma save_students (filename : string) : preserves same_students (App.save filename).
Proof. intro d. unfold App.save, modify. simpl. destruct (mem filename (files d)); reflexivity. Qed.

Lemma save_marks (filename : string) : preserves same_marks (App.save filename).
Proof.
  intro d. unfold App.save, modify. simpl.
  destruct (mem filename (files d)); split; reflexivity.
Qed.

Lemma set_uploads_students (f : db -> list upload) :
  preserves same_students (modify (fun d => set_uploads (f d) d)).
Proof. intro d. reflexivity. Qed.

Lemma set_uploads_marks (f : db -> list upload) :
  preserves same_marks (modify (fun d => set_uploads (f d) d)).
Proof. intro d. split; reflexivity. Qed.

Lemma upsert_mark_doc_students (reg subject : string) (value : num) (by_ : string)
    (at_ : nat) (source : string) :
  preserves same_students (App.upsert_mark_doc reg subject value by_ at_ source).
Proof. intro d. reflexivity. Qed.

Lemma insert_mark_students (m : mark) : preserves same_students (insert_mark m).
Proof.
  intro d. unfold insert_mark.
  destruct (marks_unique d && existsb _ (marks d)); reflexivity.
Qed.

Lemma upsert_student_doc_marks (reg : string) (name : option string) (hash : field)
    (created : nat) :
  preserves same_marks (App.upsert_student_doc reg name hash created).
Proof. intro d. split; reflexivity. Qed.

Lemma insert_student_marks (s : student) : preserves same_marks (insert_student s).
Proof.
  intro d. unfold insert_student.
  destruct (existsb _ (students d)); split; reflexivity.
Qed.

Lemma same_students_keeps_hashes (d d' : db) : same_students d d' -> keeps_hashes d d'.
Proof. intros E reg s H. exists s. rewrite E. auto. Qed.

Lemma same_marks_keeps_unique (d d' : db) : same_marks d d' -> keeps_unique d d'.
Proof. intros [E _] H. unfold unique_pairs. rewrite E. exact H. Qed.

Lemma same_marks_keeps_unique_indexed (d d' : db) :
  same_marks d d' -> keeps_unique_indexed d d'.
Proof.
  intros [E1 E2] [H1 H2]. unfold unique_pairs. rewrite E1, E2. auto.
Qed.

End Frames.

(** *** The upload and the import keep what their steps keep *)

Section UploadKeeps.
Context {P : Platform}.
Variable R : db -> db -> Prop.
Hypothesis R_refl : forall d, R d d.
Hypothesis R_trans : forall a b c, R a b -> R b c -> R a c.
Hypothesis R_now : preserves R now.
Hypothesis R_hash : forall text, preserves R (hashpw_fresh text).
Hypothesis R_save : forall filename, preserves R (App.save filename).
Hypothesis R_student :
  forall reg name hash created, preserves R (App.upsert_student_doc reg name hash created).
Hypothesis R_mark :
  forall reg subject value by_ at_ source,
    preserves R (App.upsert_mark_doc reg subject value by_ at_ source).
Hypothesis R_uploads :
  forall f : db -> list upload, preserves R (modify (fun d => set_uploads (f d) d)).

Lemma store_student_keeps (reg : string) (name dob : option string) :
  preserves R (App.store_student reg name dob).
Proof.
  unfold App.store_student, App.hash_text.
  repeat preserve_step R_refl R_trans; auto.
Qed.

Lemma store_mark_keeps (filename email reg subject : string) (marks_val : option cell) :
  preserves R (App.store_mark filename email reg subject marks_val).
Proof.
  unfold App.store_mark.
  preserve_step R_refl R_trans; [| preserve_step R_refl R_trans].
  repeat preserve_step R_refl R_trans; auto.
Qed.

Lemma upload_row_keeps (filename email : string) (cols : list string)
    (row : string -> cell) :
  preserves R (App.upload_row filename email cols row).
Proof.
  unfold App.upload_row.
  apply preserves_if; [apply (preserves_ret _ R_refl) |].
  preserve_step R_refl R_trans; [preserve_step R_refl R_trans |].
  preserve_step R_refl R_trans; [apply store_student_keeps | apply store_mark_keeps].
Qed.

Lemma upload_rows_keeps (filename email : string) (cols : list string)
    (todo : list (string -> cell)) (inserted : nat) :
  preserves R (App.upload_rows filename email cols todo inserted).
Proof.
  revert inserted. induction todo as [| row rest IH]; intro inserted; simpl.
  - apply (preserves_ret _ R_refl).
  - preserve_step R_refl R_trans; [apply upload_row_keeps | apply IH].
Qed.

Lemma upload_marks_keeps (file : option (string * content)) (email : string) :
  preserves R (App.upload_marks file email).
Proof.
  unfold App.upload_marks.
  destruct file as [[name bytes] |]; [| apply (preserves_ret _ R_refl)].
  apply preserves_if; [apply (preserves_ret _ R_refl) |].
  apply preserves_if; [apply (preserves_ret _ R_refl) |].
  preserve_step R_refl R_trans; [apply R_save |].
  destruct (App.read_upload (secure_filename name) bytes) as [[df | dfs] |];
    [| apply (preserves_raise _ R_refl) | apply (preserves_ret _ R_refl)].
  apply preserves_if; [apply (preserves_ret _ R_refl) |].
  apply (preserves_bind _ R_trans); [apply upload_rows_keeps | intro inserted].
  apply (preserves_bind _ R_trans); [apply R_now | intro uploaded_at].
  apply (preserves_bind _ R_trans); [| intro; apply (preserves_ret _ R_refl)].
  apply (R_uploads
           (fun d => uploads d ++ [mkUpload (secure_filename name) email uploaded_at])).
Qed.

End UploadKeeps.

Section ImportKeeps.
Context {P : Platform}.
Variable R : db -> db -> Prop.
Hypothesis R_refl : forall d, R d d.
Hypothesis R_trans : forall a b c, R a b -> R b c -> R a c.
Hypothesis R_now : preserves R now.
Hypothesis R_student :
  forall reg name dob, preserves R (Migrate.upsert_student_doc reg name dob).
Hypothesis R_mark : forall m, preserves R (insert_mark m).

Lemma row_at_keeps (colmap : list (string * string)) (row : string -> cell) (label : string) :
  preserves R (Migrate.row_at colmap row label).
Proof.
  unfold Migrate.row_at. destruct (Migrate.colmap_get colmap label);
    preserve_step R_refl R_trans.
Qed.

Lemma optional_text_keeps (colmap : list (string * string)) (row : string -> cell)
    (label : string) :
  preserves R (Migrate.optional_text colmap row label).
Proof.
  unfold Migrate.optional_text.
  apply preserves_if; [| apply (preserves_ret _ R_refl)].
  preserve_step R_refl R_trans; [apply row_at_keeps |].
  apply preserves_if; apply (preserves_ret _ R_refl).
Qed.

Lemma optional_date_keeps (colmap : list (string * string)) (row : string -> cell)
    (label : string) :
  preserves R (Migrate.optional_date colmap row label).
Proof.
  unfold Migrate.optional_date.
  apply preserves_if; [| apply (preserves_ret _ R_refl)].
  preserve_step R_refl R_trans; [apply row_at_keeps |].
  apply preserves_if; [| apply (preserves_ret _ R_refl)].
  repeat preserve_step R_refl R_trans.
Qed.

Lemma import_row_keeps (colmap : list (string * string)) (row : string -> cell) :
  preserves R (Migrate.import_row colmap row).
Proof.
  unfold Migrate.import_row.
  do 3 (preserve_step R_refl R_trans; [apply row_at_keeps |]).
  apply preserves_if; [apply (preserves_ret _ R_refl) |].
  preserve_step R_refl R_trans; [apply optional_date_keeps |].
  preserve_step R_refl R_trans; [apply optional_text_keeps |].
  preserve_step R_refl R_trans; [apply optional_text_keeps |].
  preserve_step R_refl R_trans; [apply optional_date_keeps |].
  preserve_step R_refl R_trans; [apply R_student |].
  preserve_step R_refl R_trans; [preserve_step R_refl R_trans |].
  preserve_step R_refl R_trans; [apply R_now |].
  preserve_step R_refl R_trans; [apply R_mark | apply (preserves_ret _ R_refl)].
Qed.

Lemma row_number_keeps (int_idx : nat -> option Z) (pos : nat) :
  preserves R (Migrate.row_number int_idx pos).
Proof.
  unfold Migrate.row_number.
  preserve_step R_refl R_trans; [apply (preserves_convert _ R_refl) |].
  apply (preserves_ret _ R_refl).
Qed.

Lemma import_rows_keeps (colmap : list (string * string)) (int_idx : nat -> option Z)
    (todo : list (string -> cell)) (pos inserted : nat) (errors : list import_error) :
  preserves R (Migrate.import_rows colmap int_idx pos todo inserted errors).
Proof.
  revert pos inserted errors.
  induction todo as [| row rest IH]; intros pos inserted errors; simpl.
  - apply (preserves_ret _ R_refl).
  - preserve_step R_refl R_trans.
    + preserve_step R_refl R_trans; [| apply (preserves_ret _ R_refl)].
      preserve_step R_refl R_trans; [apply import_row_keeps | apply (preserves_ret _ R_refl)].
    + match goal with x : (row_status + exn)%type |- _ => destruct x as [[|] | e] end.
      * apply IH.
      * preserve_step R_refl R_trans; [apply row_number_keeps | apply IH].
      * preserve_step R_refl R_trans; [apply row_number_keeps | apply IH].
Qed.

Lemma import_marks_file_keeps (filepath : string) (file : option content)
    (sheet : option string) :
  preserves R (Migrate.import_marks_file filepath file sheet).
Proof.
  unfold Migrate.import_marks_file.
  destruct file as [bytes |]; [| apply (preserves_ret _ R_refl)].
  destruct (Migrate.read_import filepath sheet bytes) as [failed | [df | dfs]];
    [apply (preserves_ret _ R_refl) | | apply (preserves_raise _ R_refl)].
  apply preserves_if; [apply (preserves_ret _ R_refl) |].
  destruct (Migrate.first_missing _); [apply (preserves_ret _ R_refl) |].
  preserve_step R_refl R_trans; [apply import_rows_keeps | apply (preserves_ret _ R_refl)].
Qed.

End ImportKeeps.

(** *** The hash of the date of birth *)

Section Hashes.
Context {P : Platform}.

Lemma app_upsert_student_doc_keeps_hashes (reg : string) (name : option string)
    (hash : field) (created : nat) :
  preserves keeps_hashes (App.upsert_student_doc reg name hash created).
Proof.
  intros d reg' s Hfind. simpl.
  apply upsert_keeps_hash; auto.
Qed.

(** On the upload path the hash of a student that exists is never written,
    whether it was set or not and whatever the rows carry. *)
Lemma upload_marks_keeps_hashes (file : option (string * content)) (email : string) :
  preserves keeps_hashes (App.upload_marks file email).
Proof.
  apply upload_marks_keeps.
  - apply keeps_hashes_refl.
  - apply keeps_hashes_trans.
  - apply (preserves_weaken _ _ _ same_students_keeps_hashes), now_students.
  - intro text. apply (preserves_weaken _ _ _ same_students_keeps_hashes), hashpw_fresh_students.
  - intro f. apply (preserves_weaken _ _ _ same_students_keeps_hashes), save_students.
  - apply app_upsert_student_doc_keeps_hashes.
  - intros. apply (preserves_weaken _ _ _ same_students_keeps_hashes), upsert_mark_doc_students.
  - intro f. apply (preserves_weaken _ _ _ same_students_keeps_hashes), set_uploads_students.
Qed.

Lemma migrate_upsert_student_doc_keeps_set_hashes (reg : string)
    (name dob : option string) :
  preserves keeps_set_hashes (Migrate.upsert_student_doc reg name dob).
Proof.
  intros d reg' s Hfind Hset. unfold Migrate.upsert_student_doc.
  destruct (find_one (has_register_number reg) (students d)) as [existing |] eqn:E.
  - destruct (truthy dob && negb (truthy (get (s_dob_hash existing)))) eqn:C.
    + simpl.
      destruct (String.eqb_spec reg' reg) as [-> | Hne].
      * unfold find_one in *. rewrite E in Hfind. injection Hfind as ->.
        rewrite Hset in C. rewrite andb_false_r in C. discriminate.
      * unfold find_one in *. rewrite find_update_one_other by auto.
        exists s. auto.
    + exists s. auto.
  - assert (Hno : existsb (has_register_number reg) (students d) = false).
    { rewrite existsb_find. unfold find_one in E. rewrite E. reflexivity. }
    destruct (truthy dob);
      unfold bind, ret, hashpw_fresh, now, insert_student; simpl; rewrite Hno; simpl;
      unfold find_one in *; rewrite find_app, Hfind; exists s; auto.
Qed.

(** On the import path a hash that is set stays as it is. *)
Lemma import_marks_file_keeps_set_hashes (filepath : string) (file : option content)
    (sheet : option string) :
  preserves keeps_set_hashes (Migrate.import_marks_file filepath file sheet).
Proof.
  apply import_marks_file_keeps.
  - apply keeps_set_hashes_refl.
  - apply keeps_set_hashes_trans.
  - apply (preserves_weaken same_students); [| apply now_students].
    intros d d' H. apply keeps_hashes_set, same_students_keeps_hashes, H.
  - apply migrate_upsert_student_doc_keeps_set_hashes.
  - intro m. apply (preserves_weaken same_students); [| apply insert_mark_students].
    intros d d' H. apply keeps_hashes_set, same_students_keeps_hashes, H.
Qed.

(** The helper of models.py writes a fresh hash over the one stored
    whenever it is given a date of birth. *)
Lemma upsert_student_sets_hash_of_existing (reg dob : string) (d : db) (s : student) :
  find_one (has_register_number reg) (students d) = Some s ->
  nonempty dob = true ->
  find_one (has_register_number reg)
           (students (final (Models.upsert_student reg (Some dob) d)))
  = Some (mkStudent (s_register_number s) (s_student_name s)
                    (Text (hashpw dob (gensalt (salts d)))) (s_created_at s)).
Proof.
  intros Hfind Hdob. unfold Models.upsert_student. rewrite Hfind. simpl.
  rewrite Hdob. simpl. unfold find_one in *.
  rewrite find_update_one_same by auto. rewrite Hfind. reflexivity.
Qed.

(** C1: the rows of a batch and the hash of a student that exists.  An
    upload never changes the stored hash, set or not, whatever its rows carry.
    An import never changes a hash that is set; and the student step of an
    import row for that register number leaves the whole database as it was
    when the hash is set or the row supplies no date of birth, so that the
    hash is changed only when it was not set and the row supplies one. *)
Theorem batch_rows_keep_dob_hash (d : db) (reg : string) (s : student) :
  find_one (has_register_number reg) (students d) = Some s ->
  (forall file email,
     exists s',
       find_one (has_register_number reg)
                (students (final (App.upload_marks file email d))) = Some s' /\
       s_dob_hash s' = s_dob_hash s) /\
  (forall filepath file sheet,
     truthy (get (s_dob_hash s)) = true ->
     exists s',
       find_one (has_register_number reg)
                (students (final (Migrate.import_marks_file filepath file sheet d)))
       = Some s' /\
       s_dob_hash s' = s_dob_hash s) /\
  (forall name dob,
     truthy (get (s_dob_hash s)) = true \/ truthy dob = false ->
     final (Migrate.upsert_student_doc reg name dob d) = d).
Proof.
  intro Hfind. split; [| split].
  - intros file email. exact (upload_marks_keeps_hashes file email d reg s Hfind).
  - intros filepath file sheet Hset.
    exact (import_marks_file_keeps_set_hashes filepath file sheet d reg s Hfind Hset).
  - intros name dob Hcase. unfold Migrate.upsert_student_doc. rewrite Hfind.
    destruct Hcase as [Hset | Hdob].
    + rewrite Hset. simpl negb. rewrite andb_false_r. reflexivity.
    + rewrite Hdob. reflexivity.
Qed.

End Hashes.

(** The helper of models.py, which no batch path calls, at an example: REG1
    is stored with the hash of 2005-01-01; [upsert_student] called for REG1
    with 2006-02-02 leaves the hash of 2006-02-02 in its place. *)
Lemma upsert_student_overwrites_dob_hash :
  map s_dob_hash (students Examples.after_alice) = [Text "$2b$12$salt0$2005-01-01"] /\
  map s_dob_hash
      (students (final (Models.upsert_student "REG1" (Some "2006-02-02")
                                              Examples.after_alice)))
  = [Text "$2b$12$salt2$2006-02-02"].
Proof. split; reflexivity. Qed.

(** *** The name of a student *)

Section Names.
Context {P : Platform}.

Lemma store_student_students (reg : string) (name dob : option string) (d : db) :
  exists fresh,
    students (final (App.store_student reg name dob d))
    = update_one_upsert (has_register_number reg)
        (fun s => mkStudent (s_register_number s) (of_option name) (s_dob_hash s)
                            (s_created_at s))
        fresh (students d).
Proof.
  unfold App.store_student. destruct (truthy dob); simpl; eexists; reflexivity.
Qed.

Lemma store_student_done (reg : string) (name dob : option string) (d : db) :
  App.store_student reg name dob d = Done tt (final (App.store_student reg name dob d)).
Proof. unfold App.store_student. destruct (truthy dob); reflexivity. Qed.

Lemma store_mark_students (filename email reg subject : string) (marks_val : option cell) :
  preserves same_students (App.store_mark filename email reg subject marks_val).
Proof.
  unfold App.store_mark.
  apply (preserves_try_except _ same_students_trans);
    [| intro; apply (preserves_ret _ same_students_refl)].
  apply (preserves_bind _ same_students_trans);
    [apply (preserves_convert _ same_students_refl) | intro value].
  apply (preserves_bind _ same_students_trans); [apply now_students | intro uploaded_at].
  apply (preserves_bind _ same_students_trans);
    [apply upsert_mark_doc_students | intro; apply (preserves_ret _ same_students_refl)].
Qed.

(** X25: what a row of an upload does to the name of a student that
    exists.  A row that the upload does not skip, and whose date of birth
    parses, replaces the stored name with the row's own value: the trimmed text
    of its student_name cell, and null when the row has no such value; the
    register number, the hash and the creation time stay. *)
Theorem upload_row_overwrites_student_name (filename email : string) (cols : list string)
    (row : string -> cell) (d : db) (s : student) (dob : option string) :
  App.skipped cols row = false ->
  App.row_dob cols row = Some dob ->
  find_one (has_register_number (App.row_reg cols row)) (students d) = Some s ->
  find_one (has_register_number (App.row_reg cols row))
           (students (final (App.upload_row filename email cols row d)))
  = Some (mkStudent (s_register_number s) (of_option (App.row_student_name cols row))
                    (s_dob_hash s) (s_created_at s)).
Proof.
  intros Hskip Hdob Hfind. unfold App.upload_row. rewrite Hskip, Hdob.
  unfold convert. unfold bind at 1, ret at 1.
  rewrite final_bind, store_student_done.
  rewrite (store_mark_students filename email _ _ _ _).
  destruct (store_student_students (App.row_reg cols row) (App.row_student_name cols row)
                                   dob d) as [fresh ->].
  unfold update_one_upsert, find_one in *.
  rewrite existsb_find, Hfind.
  rewrite find_update_one_same by auto. rewrite Hfind. reflexivity.
Qed.

End Names.

(** *** One mark per register number and subject *)

Section OnePerPair.
Context {P : Platform}.

Lemma map_key_update_one (p : mark -> bool) (f : mark -> mark) (l : list mark) :
  (forall m, key (f m) = key m) -> map key (update_one p f l) = map key l.
Proof.
  intro Hf. induction l as [| a l IH]; simpl; [reflexivity |].
  destruct (p a); simpl; [rewrite Hf | rewrite IH]; reflexivity.
Qed.

Lemma has_key_true (reg subject : string) (m : mark) :
  has_key reg subject m = true <-> key m = (reg, subject).
Proof.
  unfold has_key, key. rewrite andb_true_iff, !String.eqb_eq.
  split; [intros [-> ->]; reflexivity | intro E; injection E; auto].
Qed.

Lemma existsb_has_key (reg subject : string) (l : list mark) :
  existsb (has_key reg subject) l = false -> ~ In (reg, subject) (map key l).
Proof.
  intros Hno Hin. apply in_map_iff in Hin. destruct Hin as (m & Hk & Hm).
  apply has_key_true in Hk.
  assert (existsb (has_key reg subject) l = true) by (apply existsb_exists; eauto).
  congruence.
Qed.

Lemma NoDup_snoc {A : Type} (l : list A) (x : A) :
  NoDup l -> ~ In x l -> NoDup (l ++ [x]).
Proof.
  induction l as [| a l IH]; simpl; intros Hl Hx.
  - constructor; [intros [] | constructor].
  - inversion Hl as [| ? ? Ha Hl']; subst. constructor.
    + rewrite in_app_iff. simpl. intros [H | [H | []]]; [contradiction | subst; auto].
    + apply IH; auto.
Qed.

Lemma upsert_unique (reg subject : string) (f : mark -> mark) (fresh : mark)
    (l : list mark) :
  (forall m, key (f m) = key m) ->
  key fresh = (reg, subject) ->
  unique_pairs l ->
  unique_pairs (update_one_upsert (has_key reg subject) f fresh l).
Proof.
  intros Hf Hfresh Hl. unfold unique_pairs, update_one_upsert in *.
  destruct (existsb (has_key reg subject) l) eqn:E.
  - rewrite map_key_update_one by exact Hf. exact Hl.
  - rewrite map_app. simpl. rewrite Hfresh.
    apply NoDup_snoc; [exact Hl | apply existsb_has_key, E].
Qed.

Lemma app_upsert_mark_doc_keeps_unique (reg subject : string) (value : num)
    (by_ : string) (at_ : nat) (source : string) :
  preserves keeps_unique (App.upsert_mark_doc reg subject value by_ at_ source).
Proof.
  intros d Hd. simpl. apply upsert_unique; auto.
Qed.

Lemma app_upsert_mark_doc_keeps_unique_indexed (reg subject : string) (value : num)
    (by_ : string) (at_ : nat) (source : string) :
  preserves keeps_unique_indexed (App.upsert_mark_doc reg subject value by_ at_ source).
Proof.
  intros d [Hi Hd]. simpl. split; [exact Hi | apply upsert_unique; auto].
Qed.

Lemma insert_mark_keeps_unique_indexed (m : mark) :
  preserves keeps_unique_indexed (insert_mark m).
Proof.
  intros d [Hi Hd]. unfold insert_mark. rewrite Hi. simpl.
  destruct (existsb (has_key (m_register_number m) (m_subject_code m)) (marks d)) eqn:E;
    simpl; split; auto.
  unfold unique_pairs in *. rewrite map_app. simpl.
  apply NoDup_snoc; [exact Hd | apply existsb_has_key, E].
Qed.

Lemma migrate_upsert_student_doc_marks (reg : string) (name dob : option string) :
  preserves same_marks (Migrate.upsert_student_doc reg name dob).
Proof.
  intro d. unfold Migrate.upsert_student_doc.
  destruct (find_one (has_register_number reg) (students d)) as [existing |].
  - destruct (truthy dob && negb (truthy (get (s_dob_hash existing))));
      split; reflexivity.
  - destruct (truthy dob); unfold bind, ret, hashpw_fresh, now, insert_student; simpl;
      destruct (existsb (has_register_number reg) (students d)); split; reflexivity.
Qed.

Lemma upload_marks_keeps_unique (file : option (string * content)) (email : string) :
  preserves keeps_unique (App.upload_marks file email).
Proof.
  apply upload_marks_keeps.
  - apply keeps_unique_refl.
  - apply keeps_unique_trans.
  - apply (preserves_weaken _ _ _ same_marks_keeps_unique), now_marks.
  - intro text. apply (preserves_weaken _ _ _ same_marks_keeps_unique), hashpw_fresh_marks.
  - intro f. apply (preserves_weaken _ _ _ same_marks_keeps_unique), save_marks.
  - intros. apply (preserves_weaken _ _ _ same_marks_keeps_unique), upsert_student_doc_marks.
  - apply app_upsert_mark_doc_keeps_unique.
  - intro f. apply (preserves_weaken _ _ _ same_marks_keeps_unique), set_uploads_marks.
Qed.

Lemma upload_marks_keeps_unique_indexed (file : option (string * content)) (email : string) :
  preserves keeps_unique_indexed (App.upload_marks file email).
Proof.
  apply upload_marks_keeps.
  - apply keeps_unique_indexed_refl.
  - apply keeps_unique_indexed_trans.
  - apply (preserves_weaken _ _ _ same_marks_keeps_unique_indexed), now_marks.
  - intro text.
    apply (preserves_weaken _ _ _ same_marks_keeps_unique_indexed), hashpw_fresh_marks.
  - intro f. apply (preserves_weaken _ _ _ same_marks_keeps_unique_indexed), save_marks.
  - intros.
    apply (preserves_weaken _ _ _ same_marks_keeps_unique_indexed), upsert_student_doc_marks.
  - apply app_upsert_mark_doc_keeps_unique_indexed.
  - intro f. apply (preserves_weaken _ _ _ same_marks_keeps_unique_indexed), set_uploads_marks.
Qed.

Lemma import_marks_file_keeps_unique_indexed (filepath : string) (file : option content)
    (sheet : option string) :
  preserves keeps_unique_indexed (Migrate.import_marks_file filepath file sheet).
Proof.
  apply import_marks_file_keeps.
  - apply keeps_unique_indexed_refl.
  - apply keeps_unique_indexed_trans.
  - apply (preserves_weaken _ _ _ same_marks_keeps_unique_indexed), now_marks.
  - intros.
    apply (preserves_weaken _ _ _ same_marks_keeps_unique_indexed),
          migrate_upsert_student_doc_marks.
  - apply insert_mark_keeps_unique_indexed.
Qed.

Lemma run_all_uploads_unique (ops : list operation) (d : db) :
  forallb is_upload ops = true ->
  unique_pairs (marks d) ->
  unique_pairs (marks (run_all ops d)).
Proof.
  revert d. induction ops as [| op ops IH]; simpl; intros d Hops Hd; [exact Hd |].
  apply andb_true_iff in Hops. destruct Hops as [Hop Hops].
  apply IH; [exact Hops |].
  destruct op as [file email | filepath file sheet]; [| discriminate].
  simpl. apply upload_marks_keeps_unique, Hd.
Qed.

Lemma run_all_indexed_unique (ops : list operation) (d : db) :
  marks_unique d = true /\ unique_pairs (marks d) ->
  marks_unique (run_all ops d) = true /\ unique_pairs (marks (run_all ops d)).
Proof.
  revert d. induction ops as [| op ops IH]; simpl; intros d Hd; [exact Hd |].
  apply IH. destruct op as [file email | filepath file sheet]; simpl.
  - apply upload_marks_keeps_unique_indexed, Hd.
  - apply import_marks_file_keeps_unique_indexed, Hd.
Qed.

Lemma filter_has_key_none (reg subject : string) (l : list mark) :
  ~ In (reg, subject) (map key l) -> filter (has_key reg subject) l = [].
Proof.
  induction l as [| a l IH]; simpl; intro Hno; [reflexivity |].
  destruct (has_key reg subject a) eqn:E.
  - apply has_key_true in E. exfalso. apply Hno. left. exact E.
  - apply IH. intro Hin. apply Hno. right. exact Hin.
Qed.

(** Under unique keys the marks of a pair are the one that [find] meets. *)
Lemma filter_of_unique (reg subject : string) (l : list mark) (m : mark) :
  unique_pairs l ->
  find (has_key reg subject) l = Some m ->
  filter (has_key reg subject) l = [m].
Proof.
  unfold unique_pairs. induction l as [| a l IH]; simpl; intros Hl Hfind; [discriminate |].
  inversion Hl as [| ? ? Ha Hl']; subst.
  destruct (has_key reg subject a) eqn:E.
  - injection Hfind as ->. f_equal.
    apply has_key_true in E. rewrite E in Ha.
    apply filter_has_key_none, Ha.
  - apply IH; assumption.
Qed.

End OnePerPair.

Section Overwrite.
Context {P : Platform}.

Lemma find_update_one {A : Type} (p : A -> bool) (f : A -> A) (l : list A) :
  (forall x, p (f x) = p x) ->
  find p (update_one p f l) = option_map f (find p l).
Proof.
  intro Hf. induction l as [| a l IH]; simpl; [reflexivity |].
  destruct (p a) eqn:E; simpl.
  - rewrite Hf, E. reflexivity.
  - rewrite E. exact IH.
Qed.

Lemma find_update_one_upsert {A : Type} (p : A -> bool) (f : A -> A) (fresh : A)
    (l : list A) :
  (forall x, p (f x) = p x) ->
  p fresh = true ->
  find p (update_one_upsert p f fresh l)
  = Some (match find p l with Some old => f old | None => fresh end).
Proof.
  intros Hf Hfresh. unfold update_one_upsert. rewrite existsb_find.
  destruct (find p l) as [old |] eqn:E.
  - rewrite find_update_one by exact Hf. rewrite E. reflexivity.
  - rewrite find_app, E, Hfresh. reflexivity.
Qed.

(** A row that the upload counts has upserted its mark: the marks left are
    the marks met, with the document of the row's pair rewritten or added. *)
Lemma upload_row_counted (filename email : string) (cols : list string)
    (row : string -> cell) (d d' : db) :
  App.upload_row filename email cols row d = Done true d' ->
  exists value,
    App.float_get (App.row_marks cols row) = Some value /\
    marks d'
    = update_one_upsert (has_key (App.row_reg cols row) (App.row_subject cols row))
        (fun m => mkMark (m_register_number m) (m_subject_code m) value email
                         (utcnow (S (clock d))) (Text filename)
                         (m_subject_name m) (m_exam_date m))
        (mkMark (App.row_reg cols row) (App.row_subject cols row) value email
                (utcnow (S (clock d))) (Text filename) Absent Absent)
        (marks d).
Proof.
  unfold App.upload_row.
  destruct (App.skipped cols row); [discriminate |].
  destruct (App.row_dob cols row) as [dob |]; [| discriminate].
  unfold convert at 1. unfold bind at 1, ret at 1.
  unfold bind at 1. rewrite store_student_done.
  unfold App.store_mark, try_except.
  destruct (App.float_get (App.row_marks cols row)) as [value |]; [| discriminate].
  unfold convert, bind, ret, now, App.upsert_mark_doc, modify. simpl.
  intro H. injection H as <-. exists value. split; [reflexivity |]. simpl.
  unfold App.store_student.
  destruct (truthy dob); reflexivity.
Qed.

(** C2, as amended: from a database with at most one mark per pair, any
    sequence of uploads, and of imports too when the unique index on the pair
    is in place, leaves at most one mark per pair; a row that an upload counts
    leaves exactly one mark of its pair, holding the row's marks, the
    uploader, the time of the write and the file of the upload. *)
Theorem uploads_keep_one_mark_per_pair (d0 : db) (ops : list operation) :
  unique_pairs (marks d0) ->
  marks_unique d0 = true \/ forallb is_upload ops = true ->
  unique_pairs (marks (run_all ops d0)) /\
  (forall filename email cols row d',
      App.upload_row filename email cols row (run_all ops d0) = Done true d' ->
      exists m value,
        filter (has_key (App.row_reg cols row) (App.row_subject cols row)) (marks d') = [m] /\
        App.float_get (App.row_marks cols row) = Some value /\
        m_marks m = value /\
        m_uploaded_by m = email /\
        m_uploaded_at m = utcnow (S (clock (run_all ops d0))) /\
        m_source_file m = Text filename).
Proof.
  intros Hd0 Hops.
  assert (Hu : unique_pairs (marks (run_all ops d0))).
  { destruct Hops as [Hi | Hup].
    - apply run_all_indexed_unique. auto.
    - apply run_all_uploads_unique; assumption. }
  split; [exact Hu |].
  intros filename email cols row d' Hrow.
  destruct (upload_row_counted _ _ _ _ _ _ Hrow) as (value & Hvalue & Hmarks).
  set (reg := App.row_reg cols row) in *.
  set (subject := App.row_subject cols row) in *.
  set (f := fun m : mark => mkMark (m_register_number m) (m_subject_code m) value email
                                   (utcnow (S (clock (run_all ops d0)))) (Text filename)
                                   (m_subject_name m) (m_exam_date m)) in *.
  set (fresh := mkMark reg subject value email (utcnow (S (clock (run_all ops d0))))
                       (Text filename) Absent Absent) in *.
  assert (Hf : forall x, has_key reg subject (f x) = has_key reg subject x) by reflexivity.
  assert (Hfresh : has_key reg subject fresh = true).
  { unfold has_key, fresh. simpl. rewrite !String.eqb_refl. reflexivity. }
  exists (match find (has_key reg subject) (marks (run_all ops d0)) with
          | Some old => f old
          | None => fresh
          end), value.
  split.
  - apply filter_of_unique.
    + rewrite Hmarks. apply upsert_unique; auto.
    + rewrite Hmarks. apply find_update_one_upsert; assumption.
  - split; [exact Hvalue |].
    destruct (find (has_key reg subject) (marks (run_all ops d0))); repeat split.
Qed.

End Overwrite.

(** *** Rows that fail *)

Section ImportErrors.
Context {P : Platform}.

(** One turn of the loop of the import, by how its body ends. *)
Lemma import_rows_cons (colmap : list (string * string)) (int_idx : nat -> option Z)
    (pos : nat) (row : string -> cell) (rest : list (string -> cell)) (inserted : nat)
    (errors : list import_error) (d : db) :
  Migrate.import_rows colmap int_idx pos (row :: rest) inserted errors d =
  match Migrate.import_row colmap row d with
  | Done Inserted d' => Migrate.import_rows colmap int_idx (S pos) rest (S inserted) errors d'
  | Done LacksRequired d' =>
      match int_idx pos with
      | Some k =>
          Migrate.import_rows colmap int_idx (S pos) rest inserted
                              (errors ++ [RowError (k + 2) MissingRequired]) d'
      | None => Raised ValueError d'
      end
  | Raised e d' =>
      match int_idx pos with
      | Some k =>
          Migrate.import_rows colmap int_idx (S pos) rest inserted
                              (errors ++ [RowError (k + 2) (Message e)]) d'
      | None => Raised ValueError d'
      end
  end.
Proof.
  simpl. unfold bind at 1. unfold try_except, bind at 1.
  destruct (Migrate.import_row colmap row d) as [[|] d' | e d']; simpl;
    try reflexivity;
    unfold Migrate.row_number, bind, convert; destruct (int_idx pos); reflexivity.
Qed.

(** The loop of the import ends normally, whatever its rows do, when the
    index labels of the rows convert. *)
Lemma import_rows_done (colmap : list (string * string)) (int_idx : nat -> option Z)
    (todo : list (string -> cell)) (pos inserted : nat) (errors : list import_error)
    (d : db) :
  (forall i, pos <= i < pos + List.length todo -> int_idx i <> None) ->
  exists n errs d',
    Migrate.import_rows colmap int_idx pos todo inserted errors d = Done (n, errs) d' /\
    exists more, errs = errors ++ more.
Proof.
  revert pos inserted errors d.
  induction todo as [| row rest IH]; intros pos inserted errors d Hlabels.
  - exists inserted, errors, d. split; [reflexivity | exists []; symmetry; apply app_nil_r].
  - rewrite import_rows_cons.
    assert (Hrest : forall i, S pos <= i < S pos + List.length rest -> int_idx i <> None)
      by (intros i Hi; apply Hlabels; simpl; lia).
    destruct (int_idx pos) as [k |] eqn:Hk;
      [| exfalso; apply (Hlabels pos); [simpl; lia | exact Hk]].
    destruct (Migrate.import_row colmap row d) as [[|] d' | e d'].
    + apply IH, Hrest.
    + destruct (IH (S pos) inserted (errors ++ [RowError (k + 2) MissingRequired]) d' Hrest)
        as (n & errs & d'' & H & more & ->).
      exists n, ((errors ++ [RowError (k + 2) MissingRequired]) ++ more), d''.
      split; [exact H | rewrite <- app_assoc; eauto].
    + destruct (IH (S pos) inserted (errors ++ [RowError (k + 2) (Message e)]) d' Hrest)
        as (n & errs & d'' & H & more & ->).
      exists n, ((errors ++ [RowError (k + 2) (Message e)]) ++ more), d''.
      split; [exact H | rewrite <- app_assoc; eauto].
Qed.

(** The loop over two runs of rows is the loop over the second from where
    the first ended. *)
Lemma import_rows_app (colmap : list (string * string)) (int_idx : nat -> option Z)
    (before after : list (string -> cell))
    (pos inserted : nat) (errors : list import_error) (d : db)
    (n : nat) (errs : list import_error) (d1 : db) :
  Migrate.import_rows colmap int_idx pos before inserted errors d = Done (n, errs) d1 ->
  Migrate.import_rows colmap int_idx pos (before ++ after) inserted errors d
  = Migrate.import_rows colmap int_idx (pos + List.length before) after n errs d1.
Proof.
  revert pos inserted errors d.
  induction before as [| row rest IH]; intros pos inserted errors d H.
  - simpl in H. injection H as <- <- <-. simpl. rewrite Nat.add_0_r. reflexivity.
  - simpl app. rewrite import_rows_cons in *. simpl List.length.
    replace (pos + S (List.length rest)) with (S pos + List.length rest) by lia.
    destruct (Migrate.import_row colmap row d) as [[|] d' | e d'];
      [apply IH, H | |];
      (destruct (int_idx pos); [apply IH, H | discriminate]).
Qed.

(** X24: a row of an import that raises is listed and the import goes on.
    In an import of a readable file that has rows and the required columns and
    whose index labels all convert with [int], a row whose processing raises
    is caught and listed in the errors under [int] of its index label plus two
    (its line in the sheet under the default index, the header being line one)
    with the exception, and the loop goes on with the next row from the
    database the failed row left; the import ends normally. *)
Theorem import_records_row_failure_and_continues (filepath : string) (bytes : content)
    (sheet : option string) (df : frame cell) (d d1 d2 : db)
    (before after : list (string -> cell)) (row : string -> cell)
    (n1 : nat) (errs1 : list import_error) (e : exn) (k : Z) :
  Migrate.read_import filepath sheet bytes = inr (OneSheet df) ->
  empty df = false ->
  Migrate.first_missing (Migrate.normalize_columns (columns df)) = None ->
  rows df = before ++ row :: after ->
  numbered df ->
  int_idx df (List.length before) = Some k ->
  Migrate.import_rows (Migrate.normalize_columns (columns df)) (int_idx df) 0 before 0 [] d
  = Done (n1, errs1) d1 ->
  Migrate.import_row (Migrate.normalize_columns (columns df)) row d1 = Raised e d2 ->
  exists n errs d',
    Migrate.import_marks_file filepath (Some bytes) sheet d = Done (Imported n errs) d' /\
    In (RowError (k + 2) (Message e)) errs /\
    Migrate.import_rows (Migrate.normalize_columns (columns df)) (int_idx df)
                        (S (List.length before)) after n1
                        (errs1 ++ [RowError (k + 2) (Message e)]) d2
    = Done (n, errs) d'.
Proof.
  intros Hread Hrows Hcols Hsplit Hlabels Hk Hbefore Hrow.
  destruct (import_rows_done (Migrate.normalize_columns (columns df)) (int_idx df) after
              (S (List.length before)) n1
              (errs1 ++ [RowError (k + 2) (Message e)]) d2)
    as (n & errs & d' & Hafter & more & Herrs).
  { intros i Hi. apply Hlabels. rewrite Hsplit, length_app. simpl. lia. }
  exists n, errs, d'. split; [| split].
  - unfold Migrate.import_marks_file. rewrite Hread, Hrows, Hcols, Hsplit.
    unfold bind.
    rewrite (import_rows_app _ _ _ _ _ _ _ _ _ _ _ Hbefore).
    rewrite import_rows_cons, Hrow. simpl (0 + List.length before).
    rewrite Hk, Hafter. reflexivity.
  - rewrite Herrs, !in_app_iff. left. right. left. reflexivity.
  - exact Hafter.
Qed.

End ImportErrors.

(** Under the index pandas gives by default every label converts. *)
Lemma range_index_numbered {C : Type} (cols : list string) (rs : list (string -> C)) :
  numbered (mkFrame cols rs range_index).
Proof. intros i _. discriminate. Defined.

(* ------------------------------------------------------------------ *)
(** ** The handlers on the example data *)

Module Runs.
Import Demo Examples MoreExamples.

(** C2, counterexample: without the unique index, importing the one-row
    sheet twice leaves two marks of the pair (REG1, MATH101). *)
Lemma import_twice_stores_pair_twice :
  map key (marks (run_all [import_once; import_once] (empty_db false)))
  = [("REG1", "MATH101"); ("REG1", "MATH101")].
Proof. reflexivity. Qed.

(** With the unique index the second import does not overwrite either: its
    row is refused and listed, and the mark stays as the first import wrote it. *)
Lemma import_twice_under_index_is_refused :
  answer (Migrate.import_marks_file "marks.csv" (Some (Some one_row_file)) None
            (run_all [import_once] (empty_db true)))
  = Some (Imported 0 [RowError 2%Z (Message DuplicateKeyError)]) /\
  marks (run_all [import_once; import_once] (empty_db true))
  = marks (run_all [import_once] (empty_db true)).
Proof. split; reflexivity. Qed.

Lemma uploads_keep_one_mark_per_pair_witness :
  unique_pairs
    (marks (run_all [Upload (Some ("marks.csv", Some alice_file)) staff; import_once;
                     Upload (Some ("marks.csv", Some alice_file)) staff]
                    (empty_db true))).
Proof.
  refine (proj1 (uploads_keep_one_mark_per_pair (P := platform) (empty_db true) _ _ _)).
  - constructor.
  - left. reflexivity.
Defined.

(** C3, at the failing input: an upload whose first row has marks that
    are no number raises at that row; no error is recorded, the row after it is
    never processed, so no mark is stored, and the student of the failed row
    stays written.  The import of the same sheet lists the row under line 2
    and inserts the mark of the row after it.  The import aborts as well when
    the failing row has an index label that [int] does not convert. *)
Theorem upload_aborts_at_failing_row :
  App.upload_marks (Some ("marks.csv", Some bad_marks_file)) staff (empty_db true)
  = Raised ValueError
      (mkDb [mkStudent "REG2" (Text "Bob") (Text "$2b$12$salt0$2004-03-02") 1000]
            [] [] ["marks.csv"] true 1 1) /\
  answer (Migrate.import_marks_file "marks.csv" (Some (Some bad_marks_file)) None
                                    (empty_db false))
  = Some (Imported 1 [RowError 2%Z (Message ValueError)]) /\
  map key (marks (final (Migrate.import_marks_file "marks.csv" (Some (Some bad_marks_file))
                                                   None (empty_db false))))
  = [("REG1", "MATH101")] /\
  answer (Migrate.import_marks_file "marks.csv" (Some (Some text_index_file)) None
                                    (empty_db false))
  = None.
Proof. repeat split; reflexivity. Qed.

Lemma import_records_row_failure_and_continues_witness :
  exists n errs d',
    Migrate.import_marks_file "marks.csv" (Some (Some bad_marks_file)) None (empty_db false)
    = Done (Imported n errs) d' /\
    In (RowError 2%Z (Message ValueError)) errs /\
    map key (marks d') = [("REG1", "MATH101")].
Proof.
  destruct (import_records_row_failure_and_continues (P := platform)
              "marks.csv" (Some bad_marks_file) None bad_marks_file
              (empty_db false) (empty_db false)
              (final (Migrate.import_row (P := platform) (Migrate.normalize_columns header) bad_marks
                                         (empty_db false)))
              [] [alice_math_text] bad_marks 0 [] ValueError 0%Z
              eq_refl eq_refl eq_refl eq_refl
              (range_index_numbered header [bad_marks; alice_math_text])
              eq_refl eq_refl eq_refl)
    as (n & errs & d' & Hfile & Hin & Hrest).
  exists n, errs, d'. split; [exact Hfile | split; [exact Hin |]].
  change d' with (final (Done (n, errs) d')). rewrite <- Hrest. reflexivity.
Defined.

(** C4, counterexample: the import of a sheet with a header and no row,
    lacking the marks column, does not answer with the missing-column error:
    it reports an empty file. *)
Lemma import_of_empty_sheet_reports_empty_file :
  Migrate.import_marks_file "marks.csv" (Some (Some header_only_file)) None (empty_db false)
  = Done (Imported 0 [EmptyFile]) (empty_db false).
Proof. reflexivity. Qed.

Lemma missing_column_rejected_without_writes_witness :
  Migrate.import_marks_file "marks.csv" (Some (Some no_marks_column_file)) None
                            (empty_db false)
  = Done (MissingColumn "marks") (empty_db false) /\
  answer (App.upload_marks (Some ("marks.csv", Some no_marks_column_file)) staff
                           (empty_db false))
  = Some (Error "Missing required columns", 400).
Proof.
  destruct (missing_column_rejected_without_writes (P := platform)
              no_marks_column_file (empty_db false) eq_refl)
    as [Hupload Himport].
  destruct (Himport "marks.csv" (Some no_marks_column_file) None eq_refl) as (r & Hr & H).
  destruct (Hupload "marks.csv" (Some no_marks_column_file) staff eq_refl eq_refl eq_refl)
    as (d' & H' & _).
  assert (E : Some r = Some "marks") by (rewrite <- Hr; reflexivity).
  injection E as ->.
  split; [exact H | exact (f_equal answer H')].
Defined.

(** C5, counterexample: after an upload named [term 1.csv], stored as
    [term_1.csv], deleting [term 1.csv] removes the mark whose source_file is
    [term_1.csv], although no mark has the source_file [term 1.csv]. *)
Lemma delete_removes_marks_of_sanitised_name :
  map m_source_file (marks after_blank_name) = [Text "term_1.csv"] /\
  filter (fun m => field_eqb (m_source_file m) (Text "term 1.csv")) (marks after_blank_name)
  = [] /\
  marks (final (App.delete_upload "term 1.csv" after_blank_name)) = [].
Proof. repeat split; reflexivity. Qed.

Lemma delete_upload_removes_marks_of_file_witness :
  exists d',
    App.delete_upload "marks.csv" after_alice = Done (Deleted, 200) d' /\
    marks d' = [] /\ uploads d' = [] /\ students d' = students after_alice.
Proof.
  destruct (delete_upload_removes_marks_of_file (P := platform)
              "marks.csv" after_alice eq_refl)
    as (d' & Hrun & Hmarks & _ & Huploads & Hstudents).
  exists d'. split; [exact Hrun |].
  split; [rewrite Hmarks; reflexivity |].
  split; [rewrite Huploads; reflexivity | exact Hstudents].
Defined.

(** C6, at the failing input: REG1 is stored with the name Alice; an
    upload of a sheet with no student_name column and a row for REG1 leaves
    the name null.  The import of the same sheet leaves the name as it was. *)
Theorem upload_without_name_erases_name :
  map s_student_name (students after_alice) = [Text "Alice"] /\
  map s_student_name
      (students (final (App.upload_marks (Some ("later.csv", Some bare_file)) staff
                                         after_alice)))
  = [Null] /\
  map s_student_name
      (students (final (Migrate.import_marks_file "later.csv" (Some (Some bare_file)) None
                                                  after_alice)))
  = [Text "Alice"].
Proof. repeat split; reflexivity. Qed.

Lemma upload_row_overwrites_student_name_witness :
  find_one (has_register_number (App.row_reg bare_header alice_chem))
           (students (final (App.upload_row "later.csv" staff bare_header alice_chem
                                            after_alice)))
  = Some (mkStudent "REG1" (of_option (App.row_student_name bare_header alice_chem))
                    (Text "$2b$12$salt0$2005-01-01") 1000).
Proof.
  exact (upload_row_overwrites_student_name (P := platform)
           "later.csv" staff bare_header alice_chem after_alice
           (mkStudent "REG1" (Text "Alice") (Text "$2b$12$salt0$2005-01-01") 1000) None
           eq_refl eq_refl eq_refl).
Defined.

(** C7, at the failing input: an upload whose first row has a date of
    birth that is no date raises at that row; nothing of the sheet is stored
    and no upload is recorded.  The import of the same sheet keeps the text as
    the date of birth and inserts both rows. *)
Theorem upload_raises_on_unparsed_dob :
  App.upload_marks (Some ("marks.csv", Some bad_dob_file)) staff (empty_db true)
  = Raised ValueError (mkDb [] [] [] ["marks.csv"] true 0 0) /\
  answer (Migrate.import_marks_file "marks.csv" (Some (Some bad_dob_file)) None
                                    (empty_db false))
  = Some (Imported 2 []) /\
  map s_dob_hash
      (students (final (Migrate.import_marks_file "marks.csv" (Some (Some bad_dob_file))
                                                  None (empty_db false))))
  = [Text "$2b$12$salt0$not-a-date"; Text "$2b$12$salt1$2005-01-01"].
Proof. repeat split; reflexivity. Qed.

(** C8, at the failing input: an upload of a readable sheet with the
    required columns, one of whose rows has marks that are no number, records
    no upload document. *)
Theorem upload_with_failing_row_records_no_upload :
  App.read_upload "marks.csv" (Some bad_marks_file) = Some (OneSheet bad_marks_file) /\
  App.issubset App.required (App.normalized (columns bad_marks_file)) = true /\
  answer (App.upload_marks (Some ("marks.csv", Some bad_marks_file)) staff (empty_db true))
  = None /\
  uploads (final (App.upload_marks (Some ("marks.csv", Some bad_marks_file)) staff
                                   (empty_db true)))
  = [].
Proof. repeat split; reflexivity. Qed.

(** C9, at the failing input: a lookup whose date of birth cannot be
    encoded.  When no student has the register number, and when the student
    has no hash, the answer is the 401; when the student exists with a hash,
    the check raises and the handler with it, which the service answers with a
    500: the answer tells whether the register number is known.  A date of
    birth that does not match is answered with the 401. *)
Theorem lookup_reveals_student_when_check_raises :
  answer (App.lookup "REG1" unencodable_text (empty_db true))
  = Some (Error "Invalid details", 401) /\
  App.lookup "REG1" unencodable_text after_alice = Raised ValueError after_alice /\
  answer (App.lookup "REG1" unencodable_text after_bare)
  = Some (Error "Invalid details", 401) /\
  answer (App.lookup "REG1" "2005-01-02" after_alice)
  = Some (Error "Invalid details", 401).
Proof. repeat split; reflexivity. Qed.

Lemma batch_rows_keep_dob_hash_witness :
  (exists s',
     find_one (has_register_number "REG1")
              (students (final (App.upload_marks (Some ("again.csv", Some other_dob_file))
                                                 staff after_alice)))
     = Some s' /\
     s_dob_hash s' = Text "$2b$12$salt0$2005-01-01") /\
  (exists s',
     find_one (has_register_number "REG1")
              (students (final (Migrate.import_marks_file
                                  "again.csv" (Some (Some other_dob_file)) None after_alice)))
     = Some s' /\
     s_dob_hash s' = Text "$2b$12$salt0$2005-01-01").
Proof.
  destruct (batch_rows_keep_dob_hash (P := platform) after_alice "REG1"
              (mkStudent "REG1" (Text "Alice") (Text "$2b$12$salt0$2005-01-01") 1000)
              eq_refl)
    as (Hupload & Himport & _).
  split.
  - exact (Hupload (Some ("again.csv", Some other_dob_file)) staff).
  - exact (Himport "again.csv" (Some (Some other_dob_file)) None eq_refl).
Defined.

Lemma lookup_fails_without_stored_hash_witness :
  App.lookup "REG1" "2005-01-01" after_bare
  = Done (Error "Invalid details", 401) after_bare.
Proof.
  exact (proj1 (lookup_fails_without_stored_hash (P := platform)
                  "REG1" "2005-01-01" after_bare (mkStudent "REG1" Null Absent 1000)
                  eq_refl eq_refl eq_refl (or_intror eq_refl))).
Defined.

(** The end-to-end example of the specification: one student with a hash,
    two marks, and a lookup with the date of birth that returns both. *)
Lemma end_to_end_example :
  map s_register_number (students after_alice) = ["REG1"] /\
  map key (marks after_alice) = [("REG1", "MATH101"); ("REG1", "PHYS101")] /\
  answer (App.lookup "REG1" "2005-01-01" after_alice)
  = Some (Details "REG1" (Some "Alice") (marks after_alice), 200).
Proof. repeat split; reflexivity. Qed.

End Runs.

(** *** Trimming *)

Section Trimming.

Lemma rev_string_involutive (s : string) : rev_string (rev_string s) = s.
Proof.
  unfold rev_string.
  rewrite list_ascii_of_string_of_list_ascii, rev_involutive.
  apply string_of_list_ascii_of_string.
Qed.

Lemma lstrip_head_ok (s : string) : head_ok (lstrip s).
Proof.
  induction s as [| c s IH]; simpl; [exact I |].
  destruct (isspace c) eqn:E; [exact IH | simpl; exact E].
Qed.

Lemma lstrip_fixed (s : string) : head_ok s -> lstrip s = s.
Proof. destruct s as [| c s]; simpl; [reflexivity | intros ->; reflexivity]. Qed.

(** Dropping blanks from the front of a text that ends with a character
    that is no blank keeps that character at the end. *)
Lemma lstrip_keeps_last (l : list ascii) (c : ascii) :
  isspace c = false ->
  exists l', lstrip (string_of_list_ascii (l ++ [c])) = string_of_list_ascii (l' ++ [c]).
Proof.
  intro Hc. induction l as [| a l IH]; simpl.
  - rewrite Hc. exists []. reflexivity.
  - destruct (isspace a); [exact IH | exists (a :: l); reflexivity].
Qed.

Lemma rstrip_head_ok (u : string) :
  head_ok u -> head_ok (rev_string (lstrip (rev_string u))).
Proof.
  destruct u as [| c u]; simpl; intro Hc; [exact I |].
  unfold rev_string at 2. simpl.
  destruct (lstrip_keeps_last (rev (list_ascii_of_string u)) c Hc) as [l' ->].
  unfold rev_string. rewrite list_ascii_of_string_of_list_ascii, rev_app_distr.
  simpl. exact Hc.
Qed.

Lemma strip_head_ok (s : string) : head_ok (strip s).
Proof. unfold strip. apply rstrip_head_ok, lstrip_head_ok. Qed.

Lemma strip_tail_ok (s : string) : head_ok (rev_string (strip s)).
Proof. unfold strip. rewrite rev_string_involutive. apply lstrip_head_ok. Qed.

Lemma strip_fixed (s : string) : head_ok s -> head_ok (rev_string s) -> strip s = s.
Proof.
  intros H1 H2. unfold strip.
  rewrite (lstrip_fixed s H1), (lstrip_fixed _ H2). apply rev_string_involutive.
Qed.

(** Trimming a trimmed text changes nothing. *)
Lemma strip_idempotent (s : string) : strip (strip s) = strip s.
Proof. apply strip_fixed; [apply strip_head_ok | apply strip_tail_ok]. Qed.

End Trimming.

(** *** Looking up, further *)

Section LookupMore.
Context {P : Platform}.

Lemma verify_hash_final (text : string) (hashed : option string) (d : db) :
  final (App.verify_hash text hashed d) = d.
Proof.
  unfold App.verify_hash. destruct hashed as [h |]; [| reflexivity].
  destruct (nonempty h); [| reflexivity].
  destruct (checkpw text h); reflexivity.
Qed.

(** X1: a lookup writes nothing: whatever it answers, and also when the
    check of the hash raises, the database is left as it was met. *)
Theorem lookup_is_read_only (register_number dob : string) (d : db) :
  final (App.lookup register_number dob d) = d.
Proof.
  unfold App.lookup.
  destruct (negb (nonempty (strip register_number)) || negb (nonempty (strip dob)));
    [reflexivity |].
  destruct (find_one _ (students d)) as [s |]; [| reflexivity].
  rewrite final_bind.
  pose proof (verify_hash_final (strip dob) (get_default (s_dob_hash s)) d) as Hv.
  destruct (App.verify_hash (strip dob) (get_default (s_dob_hash s)) d) as [ok d' | e d'];
    simpl in Hv; subst d'; [| reflexivity].
  destruct ok; reflexivity.
Qed.

(** X2: blanks around the register number and the date of birth of a
    request do not count: the lookup answers as for the trimmed texts. *)
Theorem lookup_ignores_surrounding_blanks (register_number dob : string) (d : db) :
  App.lookup register_number dob d = App.lookup (strip register_number) (strip dob) d.
Proof. unfold App.lookup. rewrite !strip_idempotent. reflexivity. Qed.

Lemma store_student_new (reg : string) (name dob : option string) (d : db) :
  find_one (has_register_number reg) (students d) = None ->
  students (final (App.store_student reg name dob d))
  = students d
    ++ [mkStudent reg (of_option name)
                  (if truthy dob
                   then Text (hashpw (match dob with Some t => t | None => "" end)
                                     (gensalt (salts d)))
                   else Absent)
                  (utcnow (clock d))].
Proof.
  intro Hnone. unfold App.store_student.
  assert (Hno : existsb (has_register_number reg) (students d) = false).
  { rewrite existsb_find. unfold find_one in Hnone. rewrite Hnone. reflexivity. }
  destruct (truthy dob); simpl; unfold update_one_upsert; rewrite Hno; reflexivity.
Qed.

Lemma upload_row_students (filename email : string) (cols : list string)
    (row : string -> cell) (d : db) (dob : option string) :
  App.skipped cols row = false ->
  App.row_dob cols row = Some dob ->
  students (final (App.upload_row filename email cols row d))
  = students (final (App.store_student (App.row_reg cols row)
                                        (App.row_student_name cols row) dob d)).
Proof.
  intros Hskip Hdob. unfold App.upload_row. rewrite Hskip, Hdob.
  unfold convert. unfold bind at 1, ret at 1.
  rewrite final_bind, store_student_done.
  apply (store_mark_students filename email _ _ _ _).
Qed.

Lemma upload_row_done (filename email : string) (cols : list string)
    (row : string -> cell) (d : db) (dob : option string) (value : num) :
  App.skipped cols row = false ->
  App.row_dob cols row = Some dob ->
  App.float_get (App.row_marks cols row) = Some value ->
  exists d', App.upload_row filename email cols row d = Done true d'.
Proof.
  intros Hskip Hdob Hvalue. unfold App.upload_row. rewrite Hskip, Hdob.
  unfold convert at 1. unfold bind at 1, ret at 1.
  unfold bind at 1. rewrite store_student_done.
  unfold App.store_mark, try_except. rewrite Hvalue.
  eexists. reflexivity.
Qed.

Lemma skipped_false_reg (cols : list string) (row : string -> cell) :
  App.skipped cols row = false -> nonempty (App.row_reg cols row) = true.
Proof.
  unfold App.skipped. intro H.
  destruct (nonempty (App.row_reg cols row)); [reflexivity | discriminate].
Qed.

Lemma row_reg_trimmed (cols : list string) (row : string -> cell) :
  strip (App.row_reg cols row) = App.row_reg cols row.
Proof. apply strip_idempotent. Qed.

(** X3: a row that creates a student can be looked up at once.  When the
    row is not skipped, its date of birth parses to a trimmed text, its marks
    convert, no student has its register number yet, and bcrypt accepts the
    hash it made of that text, then the lookup with the register number and
    that text answers 200 with the name of the row and the marks of the
    student, the mark of the row among them. *)
Theorem uploaded_student_can_look_up (filename email : string) (cols : list string)
    (row : string -> cell) (d : db) (iso : string) (value : num) :
  App.skipped cols row = false ->
  App.row_dob cols row = Some (Some iso) ->
  nonempty iso = true ->
  strip iso = iso ->
  App.float_get (App.row_marks cols row) = Some value ->
  find_one (has_register_number (App.row_reg cols row)) (students d) = None ->
  nonempty (hashpw iso (gensalt (salts d))) = true ->
  checkpw iso (hashpw iso (gensalt (salts d))) = Some true ->
  exists d',
    App.upload_row filename email cols row d = Done true d' /\
    answer (App.lookup (App.row_reg cols row) iso d')
    = Some (Details (App.row_reg cols row) (App.row_student_name cols row)
              (filter (fun m => m_register_number m =? App.row_reg cols row) (marks d')),
            200) /\
    exists m,
      In m (filter (fun m => m_register_number m =? App.row_reg cols row) (marks d')) /\
      m_subject_code m = App.row_subject cols row /\
      m_marks m = value /\
      m_source_file m = Text filename.
Proof.
  intros Hskip Hdob Hiso Htrim Hvalue Hnone Hhash Hcheck.
  destruct (upload_row_done filename email cols row d _ _ Hskip Hdob Hvalue) as [d' Hdone].
  exists d'. split; [exact Hdone |].
  assert (Hd' : final (App.upload_row filename email cols row d) = d')
    by (rewrite Hdone; reflexivity).
  assert (Hst : students d'
                = students d
                  ++ [mkStudent (App.row_reg cols row)
                                (of_option (App.row_student_name cols row))
                                (Text (hashpw iso (gensalt (salts d)))) (utcnow (clock d))]).
  { rewrite <- Hd'. rewrite (upload_row_students _ _ _ _ _ _ Hskip Hdob).
    rewrite (store_student_new _ _ _ _ Hnone). simpl. rewrite Hiso. reflexivity. }
  split.
  - unfold App.lookup. rewrite row_reg_trimmed, Htrim, Hiso.
    rewrite (skipped_false_reg _ _ Hskip). simpl.
    unfold find_one in *. rewrite Hst, find_app, Hnone.
    unfold has_register_number at 1. simpl. rewrite String.eqb_refl.
    unfold bind, App.verify_hash. simpl. rewrite Hhash, Hcheck. simpl.
    destruct (App.row_student_name cols row); reflexivity.
  - destruct (upload_row_counted _ _ _ _ _ _ Hdone) as (value' & Hvalue' & Hmarks).
    rewrite Hvalue in Hvalue'. injection Hvalue' as <-.
    set (reg := App.row_reg cols row) in *.
    set (subject := App.row_subject cols row) in *.
    match type of Hmarks with
    | _ = update_one_upsert _ ?f ?fresh _ =>
        assert (Hfind : find (has_key reg subject) (marks d')
                        = Some (match find (has_key reg subject) (marks d) with
                                | Some old => f old
                                | None => fresh
                                end))
    end.
    { rewrite Hmarks. apply find_update_one_upsert; [reflexivity |].
      unfold has_key. simpl. rewrite !String.eqb_refl. reflexivity. }
    apply find_some in Hfind. destruct Hfind as [Hin Hkey].
    apply has_key_true in Hkey. unfold key in Hkey. injection Hkey as Hr Hs.
    eexists. split; [| split; [exact Hs | split]].
    + apply filter_In. split; [exact Hin |]. rewrite Hr. apply String.eqb_refl.
    + destruct (find (has_key reg subject) (marks d)); reflexivity.
    + destruct (find (has_key reg subject) (marks d)); reflexivity.
Qed.

End LookupMore.

(** *** The upload, file by file *)

Section UploadMore.
Context {P : Platform}.

Lemma same_uploads_refl (d : db) : same_uploads d d.
Proof. split; reflexivity. Qed.

Lemma same_uploads_trans (a b c : db) :
  same_uploads a b -> same_uploads b c -> same_uploads a c.
Proof. unfold same_uploads. intros [H1 H2] [H3 H4]. split; congruence. Qed.

Lemma upload_rows_same_uploads (filename email : string) (cols : list string)
    (todo : list (string -> cell)) (inserted : nat) :
  preserves same_uploads (App.upload_rows filename email cols todo inserted).
Proof.
  apply upload_rows_keeps.
  - apply same_uploads_refl.
  - apply same_uploads_trans.
  - intro d. split; reflexivity.
  - intros text d. split; reflexivity.
  - intros reg name hash created d. split; reflexivity.
  - intros reg subject value by_ at_ source d. split; reflexivity.
Qed.

Lemma upload_row_same_uploads (filename email : string) (cols : list string)
    (row : string -> cell) :
  preserves same_uploads (App.upload_row filename email cols row).
Proof.
  apply upload_row_keeps.
  - apply same_uploads_refl.
  - apply same_uploads_trans.
  - intro d. split; reflexivity.
  - intros text d. split; reflexivity.
  - intros reg name hash created d. split; reflexivity.
  - intros reg subject value by_ at_ source d. split; reflexivity.
Qed.

(** A row that converts ends the turn normally, counted unless skipped. *)
Lemma upload_row_converts (filename email : string) (cols : list string)
    (row : string -> cell) (d : db) :
  converts cols row = true ->
  exists d',
    App.upload_row filename email cols row d = Done (negb (App.skipped cols row)) d'.
Proof.
  unfold converts. intro H.
  destruct (App.skipped cols row) eqn:Hskip.
  - unfold App.upload_row. rewrite Hskip. exists d. reflexivity.
  - simpl in H.
    destruct (App.row_dob cols row) as [dob |] eqn:Hdob; [| discriminate].
    destruct (App.float_get (App.row_marks cols row)) as [value |] eqn:Hvalue;
      [| discriminate].
    apply (upload_row_done filename email cols row d dob value); assumption.
Qed.

(** A row that does not convert raises [ValueError]. *)
Lemma upload_row_raises (filename email : string) (cols : list string)
    (row : string -> cell) (d : db) :
  converts cols row = false ->
  exists d', App.upload_row filename email cols row d = Raised ValueError d'.
Proof.
  unfold converts. intro H.
  destruct (App.skipped cols row) eqn:Hskip; [discriminate |]. simpl in H.
  unfold App.upload_row. rewrite Hskip.
  destruct (App.row_dob cols row) as [dob |] eqn:Hdob.
  - destruct (App.float_get (App.row_marks cols row)) as [value |] eqn:Hvalue;
      [discriminate |].
    unfold convert at 1. unfold bind at 1, ret at 1.
    unfold bind at 1. rewrite store_student_done.
    unfold App.store_mark, try_except. rewrite Hvalue.
    eexists. reflexivity.
  - exists d. reflexivity.
Qed.

Lemma upload_rows_converting (filename email : string) (cols : list string)
    (todo : list (string -> cell)) (inserted : nat) (d : db) :
  forallb (converts cols) todo = true ->
  exists d',
    App.upload_rows filename email cols todo inserted d
    = Done (inserted + List.length (kept_rows cols todo)) d'.
Proof.
  revert inserted d. induction todo as [| row rest IH]; intros inserted d Hall.
  - exists d. simpl. rewrite Nat.add_0_r. reflexivity.
  - simpl in Hall. apply andb_true_iff in Hall. destruct Hall as [Hrow Hrest].
    destruct (upload_row_converts filename email cols row d Hrow) as [d1 H1].
    simpl App.upload_rows. unfold bind. rewrite H1.
    unfold kept_rows. simpl filter.
    destruct (App.skipped cols row); simpl negb; cbv iota.
    + apply IH, Hrest.
    + destruct (IH (S inserted) d1 Hrest) as [d' H']. exists d'. rewrite H'.
      unfold kept_rows. simpl List.length.
      rewrite Nat.add_succ_r. reflexivity.
Qed.

Lemma upload_rows_app (filename email : string) (cols : list string)
    (before after : list (string -> cell)) (inserted n1 : nat) (d d1 : db) :
  App.upload_rows filename email cols before inserted d = Done n1 d1 ->
  App.upload_rows filename email cols (before ++ after) inserted d
  = App.upload_rows filename email cols after n1 d1.
Proof.
  revert inserted d. induction before as [| row rest IH]; intros inserted d H.
  - simpl in H. injection H as <- <-. reflexivity.
  - simpl app. simpl App.upload_rows in *. unfold bind in *.
    destruct (App.upload_row filename email cols row d) as [counted d' | e d'];
      [| discriminate].
    apply IH, H.
Qed.

Lemma mem_save (filename : string) (d : db) :
  mem filename (files (final (App.save filename d))) = true.
Proof.
  unfold App.save, modify. simpl.
  destruct (mem filename (files d)) eqn:E; [exact E |].
  simpl. unfold mem. rewrite existsb_app. simpl.
  rewrite String.eqb_refl. apply orb_true_r.
Qed.

(** X4: a file that passes the name checks is written to the upload
    directory before it is read, and stays there when the upload is then
    turned away: for a file pandas cannot read, and for one that lacks a
    required column, the answer is a 400, the collections are as they were, and
    the file is among the stored ones. *)
Theorem rejected_upload_leaves_file_stored (name : string) (bytes : content)
    (email : string) (d : db) :
  nonempty name = true ->
  App.allowed_file name = true ->
  match App.read_upload (secure_filename name) bytes with
  | None => True
  | Some (OneSheet df) => App.issubset App.required (App.normalized (columns df)) = false
  | Some (AllSheets _) => False
  end ->
  exists msg d',
    App.upload_marks (Some (name, bytes)) email d = Done (Error msg, 400) d' /\
    same_collections d d' /\
    mem (secure_filename name) (files d') = true.
Proof.
  intros Hname Hallowed Hread.
  unfold App.upload_marks. rewrite Hname, Hallowed.
  unfold bind, App.save at 1, modify at 1. cbv beta iota.
  change (if mem (secure_filename name) (files d)
          then d else set_files (files d ++ [secure_filename name]) d)
    with (final (App.save (secure_filename name) d)).
  destruct (App.read_upload (secure_filename name) bytes) as [[df | dfs] |];
    [rewrite Hread | contradiction |];
    eexists; eexists; (split; [reflexivity |]);
    (split; [apply save_same_collections | apply mem_save]).
Qed.

(** X5: when every row of an accepted file converts, the upload answers
    200 with the number of rows it did not skip, whatever the database held;
    it records exactly one upload document, for the sanitised name and the
    uploader, after those already there, and the file is stored. *)
Theorem upload_counts_rows_and_records_once (name : string) (bytes : content)
    (email : string) (df : frame cell) (d : db) :
  nonempty name = true ->
  App.allowed_file name = true ->
  App.read_upload (secure_filename name) bytes = Some (OneSheet df) ->
  App.issubset App.required (App.normalized (columns df)) = true ->
  forallb (converts (columns df)) (rows df) = true ->
  exists d' at_,
    App.upload_marks (Some (name, bytes)) email d
    = Done (Processed (List.length (kept_rows (columns df) (rows df))), 200) d' /\
    uploads d' = uploads d ++ [mkUpload (secure_filename name) email at_] /\
    mem (secure_filename name) (files d') = true.
Proof.
  intros Hname Hallowed Hread Hcols Hrows.
  set (saved := final (App.save (secure_filename name) d)).
  destruct (upload_rows_converting (secure_filename name) email (columns df) (rows df)
                                   0 saved Hrows) as [d1 H1].
  pose proof (upload_rows_same_uploads (secure_filename name) email (columns df)
                                       (rows df) 0 saved) as [Hu Hf].
  rewrite H1 in Hu, Hf. simpl in Hu, Hf.
  exists (set_uploads (uploads d1 ++ [mkUpload (secure_filename name) email
                                               (utcnow (clock d1))])
                      (final (now d1))), (utcnow (clock d1)).
  split; [| split].
  - unfold App.upload_marks. rewrite Hname, Hallowed. cbn [negb].
    unfold bind at 1. unfold App.save at 1, modify at 1. cbv beta iota.
    change (if mem (secure_filename name) (files d)
            then d else set_files (files d ++ [secure_filename name]) d)
      with saved.
    rewrite Hread, Hcols. cbn [negb].
    unfold bind at 1. rewrite H1. reflexivity.
  - simpl. rewrite Hu. unfold saved.
    destruct (save_same_collections (secure_filename name) d) as (_ & _ & ->).
    reflexivity.
  - simpl. rewrite Hf. apply mem_save.
Qed.

(** X6: an upload is not undone by the row it fails on.  When the rows
    before a row convert and that row does not, the upload raises
    [ValueError] out of that row: the rows before it are processed and their
    writes stay, the rows after it are never reached, and no upload document
    is recorded. *)
Theorem upload_aborts_without_rollback (name : string) (bytes : content)
    (email : string) (df : frame cell) (d : db)
    (before after : list (string -> cell)) (row : string -> cell) :
  nonempty name = true ->
  App.allowed_file name = true ->
  App.read_upload (secure_filename name) bytes = Some (OneSheet df) ->
  App.issubset App.required (App.normalized (columns df)) = true ->
  rows df = before ++ row :: after ->
  forallb (converts (columns df)) before = true ->
  converts (columns df) row = false ->
  exists d1,
    App.upload_rows (secure_filename name) email (columns df) before 0
                    (final (App.save (secure_filename name) d))
    = Done (List.length (kept_rows (columns df) before)) d1 /\
    App.upload_marks (Some (name, bytes)) email d
    = Raised ValueError
             (final (App.upload_row (secure_filename name) email (columns df) row d1)) /\
    uploads (final (App.upload_row (secure_filename name) email (columns df) row d1))
    = uploads d.
Proof.
  intros Hname Hallowed Hread Hcols Hsplit Hbefore Hrow.
  set (saved := final (App.save (secure_filename name) d)).
  destruct (upload_rows_converting (secure_filename name) email (columns df) before
                                   0 saved Hbefore) as [d1 H1].
  simpl in H1. exists d1. split; [exact H1 |].
  destruct (upload_row_raises (secure_filename name) email (columns df) row d1 Hrow)
    as [d2 H2].
  split.
  - unfold App.upload_marks. rewrite Hname, Hallowed. cbn [negb].
    unfold bind at 1. unfold App.save at 1, modify at 1. cbv beta iota.
    change (if mem (secure_filename name) (files d)
            then d else set_files (files d ++ [secure_filename name]) d)
      with saved.
    rewrite Hread, Hcols. cbn [negb].
    unfold bind at 1. rewrite Hsplit.
    rewrite (upload_rows_app _ _ _ _ _ _ _ _ _ H1).
    simpl App.upload_rows. unfold bind at 1. rewrite H2. reflexivity.
  - pose proof (upload_row_same_uploads (secure_filename name) email (columns df) row d1)
      as [Hu _].
    pose proof (upload_rows_same_uploads (secure_filename name) email (columns df)
                                         before 0 saved) as [Hu' _].
    rewrite H1 in Hu'. simpl in Hu'. rewrite Hu, Hu'. unfold saved.
    destruct (save_same_collections (secure_filename name) d) as (_ & _ & ->).
    reflexivity.
Qed.

End UploadMore.

(** *** The import, further *)

Section Ending.
Context {P : Platform}.
Variable R : db -> db -> Prop.
Hypothesis R_trans : forall a b c, R a b -> R b c -> R a c.

(** A step that keeps [R] in front of a computation described by [R] and
    [S], when [S] absorbs [R] on its left. *)
Lemma ends_bind {A B : Type} (S : B -> db -> db -> Prop) (c : M A) (k : A -> M B) :
  (forall b d d1 d2, R d d1 -> S b d1 d2 -> S b d d2) ->
  preserves R c ->
  (forall a, ends R S (k a)) ->
  ends R S (bind c k).
Proof.
  intros Habsorb Hc Hk d. unfold bind.
  specialize (Hc d). destruct (c d) as [a d1 | e d1]; simpl in Hc; [| exact Hc].
  specialize (Hk a d1). destruct (k a d1) as [b d2 | e d2].
  - eapply Habsorb; eassumption.
  - eapply R_trans; eassumption.
Qed.

End Ending.

Section ImportMore.
Context {P : Platform}.

Lemma after_import_row_absorbs (status : row_status) (d d1 d2 : db) :
  same_marks d d1 -> after_import_row status d1 d2 -> after_import_row status d d2.
Proof.
  intros [Hm Hu] [Hu' H]. split; [congruence |].
  destruct status; [| congruence].
  destruct H as (m & H & Hi). exists m. split; [congruence | exact Hi].
Qed.

(** What a turn of the import loop does to the marks: it adds one mark of
    the migration script when the body ends with an insert, and none when it
    ends otherwise or raises. *)
Lemma import_row_ends (colmap : list (string * string)) (row : string -> cell) :
  ends same_marks after_import_row (Migrate.import_row colmap row).
Proof.
  unfold Migrate.import_row.
  do 3 (apply (ends_bind _ same_marks_trans);
        [exact after_import_row_absorbs
        | apply (row_at_keeps _ same_marks_refl) | intro]).
  match goal with |- ends _ _ (if ?b then _ else _) => destruct b end.
  { intro d. split; reflexivity. }
  apply (ends_bind _ same_marks_trans);
    [exact after_import_row_absorbs
    | apply (optional_date_keeps _ same_marks_refl same_marks_trans) | intro dob].
  apply (ends_bind _ same_marks_trans);
    [exact after_import_row_absorbs
    | apply (optional_text_keeps _ same_marks_refl same_marks_trans) | intro student_name].
  apply (ends_bind _ same_marks_trans);
    [exact after_import_row_absorbs
    | apply (optional_text_keeps _ same_marks_refl same_marks_trans) | intro subject_name].
  apply (ends_bind _ same_marks_trans);
    [exact after_import_row_absorbs
    | apply (optional_date_keeps _ same_marks_refl same_marks_trans) | intro exam_date].
  apply (ends_bind _ same_marks_trans);
    [exact after_import_row_absorbs | apply migrate_upsert_student_doc_marks | intros _].
  apply (ends_bind _ same_marks_trans);
    [exact after_import_row_absorbs
    | apply (preserves_convert _ same_marks_refl) | intro value].
  apply (ends_bind _ same_marks_trans);
    [exact after_import_row_absorbs | apply now_marks | intro uploaded_at].
  intro d. unfold bind, insert_mark, ret.
  destruct (marks_unique d && existsb _ (marks d)).
  - apply same_marks_refl.
  - split; [reflexivity |]. simpl. eexists. split; [reflexivity |]. split; reflexivity.
Qed.

(** The loop of the import, counted, however it ends: the marks it leaves
    are the marks it met followed by those it added, all of them marks of the
    migration script; and when it returns, it added as many as it counted, and
    every row went either to the count or to the errors. *)
Lemma import_rows_counted (colmap : list (string * string)) (int_idx : nat -> option Z)
    (todo : list (string -> cell)) (pos inserted : nat) (errors : list import_error)
    (d : db) :
  exists added,
    marks (final (Migrate.import_rows colmap int_idx pos todo inserted errors d))
    = marks d ++ added /\
    Forall imported added /\
    forall n errs d',
      Migrate.import_rows colmap int_idx pos todo inserted errors d = Done (n, errs) d' ->
      n = inserted + List.length added /\
      n + List.length errs = inserted + List.length errors + List.length todo.
Proof.
  revert pos inserted errors d.
  induction todo as [| row rest IH]; intros pos inserted errors d.
  - exists []. simpl. rewrite app_nil_r.
    split; [reflexivity |]. split; [constructor |].
    intros n errs d' H. injection H as <- <- <-. simpl. lia.
  - rewrite import_rows_cons.
    pose proof (import_row_ends colmap row d) as Hrow.
    destruct (Migrate.import_row colmap row d) as [[|] d1 | e d1].
    + destruct Hrow as (_ & m & Hm & Hi).
      destruct (IH (S pos) (S inserted) errors d1) as (added & Hmarks & Hadded & Hcount).
      exists (m :: added).
      split; [rewrite Hmarks, Hm, <- app_assoc; reflexivity |].
      split; [constructor; assumption |].
      intros n errs d' H. destruct (Hcount n errs d' H). simpl List.length. lia.
    + destruct Hrow as (_ & Hm).
      destruct (int_idx pos) as [k |].
      * destruct (IH (S pos) inserted (errors ++ [RowError (k + 2) MissingRequired]) d1)
          as (added & Hmarks & Hadded & Hcount).
        exists added.
        split; [rewrite Hmarks, Hm; reflexivity |]. split; [exact Hadded |].
        intros n errs d' H. destruct (Hcount n errs d' H) as [Hn Hall].
        rewrite length_app in Hall. simpl List.length in *. lia.
      * exists []. simpl. rewrite app_nil_r.
        split; [exact Hm |]. split; [constructor | discriminate].
    + destruct Hrow as (Hm & _).
      destruct (int_idx pos) as [k |].
      * destruct (IH (S pos) inserted (errors ++ [RowError (k + 2) (Message e)]) d1)
          as (added & Hmarks & Hadded & Hcount).
        exists added.
        split; [rewrite Hmarks, Hm; reflexivity |]. split; [exact Hadded |].
        intros n errs d' H. destruct (Hcount n errs d' H) as [Hn Hall].
        rewrite length_app in Hall. simpl List.length in *. lia.
      * exists []. simpl. rewrite app_nil_r.
        split; [exact Hm |]. split; [constructor | discriminate].
Qed.

(** The loop of the import on the rows of a frame whose labels convert. *)
Lemma import_rows_numbered (df : frame cell) (inserted : nat) (errors : list import_error)
    (d : db) :
  numbered df ->
  exists n errs d',
    Migrate.import_rows (Migrate.normalize_columns (columns df)) (int_idx df) 0 (rows df)
                        inserted errors d
    = Done (n, errs) d'.
Proof.
  intro Hlabels.
  destruct (import_rows_done (Migrate.normalize_columns (columns df)) (int_idx df) (rows df)
                             0 inserted errors d)
    as (n & errs & d' & H & _).
  { intros i Hi. apply Hlabels. lia. }
  exists n, errs, d'. exact H.
Qed.

Lemma migrate_upsert_student_doc_uploads (reg : string) (name dob : option string) :
  preserves same_uploads (Migrate.upsert_student_doc reg name dob).
Proof.
  intro d. unfold Migrate.upsert_student_doc.
  destruct (find_one (has_register_number reg) (students d)) as [existing |].
  - destruct (truthy dob && negb (truthy (get (s_dob_hash existing))));
      split; reflexivity.
  - destruct (truthy dob); unfold bind, ret, hashpw_fresh, now, insert_student; simpl;
      destruct (existsb (has_register_number reg) (students d)); split; reflexivity.
Qed.

Lemma import_marks_file_same_uploads (filepath : string) (file : option content)
    (sheet : option string) :
  preserves same_uploads (Migrate.import_marks_file filepath file sheet).
Proof.
  apply import_marks_file_keeps.
  - apply same_uploads_refl.
  - apply same_uploads_trans.
  - intro d. split; reflexivity.
  - apply migrate_upsert_student_doc_uploads.
  - intros m d. unfold insert_mark.
    destruct (marks_unique d && existsb _ (marks d)); split; reflexivity.
Qed.

(** X8: an import of a file read as one data frame with rows and the
    required columns, whose index labels all convert with [int] (as under the
    index pandas gives by default), ends normally, and every row is counted
    exactly once: the number of marks inserted and the number of entries of the
    error list add up to the number of rows. *)
Theorem import_counts_every_row_once (filepath : string) (bytes : content)
    (sheet : option string) (df : frame cell) (d : db) :
  Migrate.read_import filepath sheet bytes = inr (OneSheet df) ->
  empty df = false ->
  Migrate.first_missing (Migrate.normalize_columns (columns df)) = None ->
  numbered df ->
  exists n errs d',
    Migrate.import_marks_file filepath (Some bytes) sheet d = Done (Imported n errs) d' /\
    n + List.length errs = List.length (rows df).
Proof.
  intros Hread Hrows Hcols Hlabels.
  destruct (import_rows_numbered df 0 [] d Hlabels) as (n & errs & d' & Hrun).
  destruct (import_rows_counted (Migrate.normalize_columns (columns df)) (int_idx df)
                                (rows df) 0 0 [] d)
    as (added & _ & _ & Hcount).
  exists n, errs, d'. split; [| exact (proj2 (Hcount n errs d' Hrun))].
  unfold Migrate.import_marks_file. rewrite Hread, Hrows, Hcols.
  unfold bind. rewrite Hrun. reflexivity.
Qed.

(** Whatever the file, the marks an import leaves are those it met followed
    by marks of the migration script. *)
Lemma import_marks_file_appends (filepath : string) (file : option content)
    (sheet : option string) (d : db) :
  exists added,
    marks (final (Migrate.import_marks_file filepath file sheet d)) = marks d ++ added /\
    Forall imported added.
Proof.
  assert (Hsame : exists added, marks d = marks d ++ added /\ Forall imported added).
  { exists []. split; [symmetry; apply app_nil_r | constructor]. }
  unfold Migrate.import_marks_file.
  destruct file as [bytes |]; [| exact Hsame].
  destruct (Migrate.read_import filepath sheet bytes) as [failed | [df | dfs]];
    [exact Hsame | | exact Hsame].
  destruct (empty df); [exact Hsame |].
  destruct (Migrate.first_missing _); [exact Hsame |].
  destruct (import_rows_counted (Migrate.normalize_columns (columns df)) (int_idx df)
                                (rows df) 0 0 [] d)
    as (added & Hmarks & Hadded & _).
  exists added. split; [| exact Hadded].
  rewrite final_bind.
  destruct (Migrate.import_rows _ _ _ _ _ _ d) as [[n errs] d' | e d']; exact Hmarks.
Qed.

(** X9: an import only adds marks, also when it is cut short.  For a file
    read as one data frame with rows and the required columns, the marks the
    import leaves are the marks it met, in place and unchanged, followed by
    new ones; each new mark carries no source_file and names the migration
    script as uploader; the uploads and the stored files are left alone.  When
    the index labels all convert, the import returns and the new marks are as
    many as it reports inserted. *)
Theorem import_only_appends_marks (filepath : string) (bytes : content)
    (sheet : option string) (df : frame cell) (d : db) :
  Migrate.read_import filepath sheet bytes = inr (OneSheet df) ->
  empty df = false ->
  Migrate.first_missing (Migrate.normalize_columns (columns df)) = None ->
  (exists added,
     marks (final (Migrate.import_marks_file filepath (Some bytes) sheet d))
     = marks d ++ added /\
     Forall imported added /\
     uploads (final (Migrate.import_marks_file filepath (Some bytes) sheet d)) = uploads d /\
     files (final (Migrate.import_marks_file filepath (Some bytes) sheet d)) = files d) /\
  (numbered df ->
   exists n errs d' added,
     Migrate.import_marks_file filepath (Some bytes) sheet d = Done (Imported n errs) d' /\
     marks d' = marks d ++ added /\
     List.length added = n /\
     Forall imported added /\
     uploads d' = uploads d /\
     files d' = files d).
Proof.
  intros Hread Hrows Hcols.
  pose proof (import_marks_file_same_uploads filepath (Some bytes) sheet d) as [Hu Hf].
  split.
  - destruct (import_marks_file_appends filepath (Some bytes) sheet d)
      as (added & Hmarks & Hadded).
    exists added. repeat split; assumption.
  - intro Hlabels.
    destruct (import_rows_numbered df 0 [] d Hlabels) as (n & errs & d' & Hrun).
    destruct (import_rows_counted (Migrate.normalize_columns (columns df)) (int_idx df)
                                  (rows df) 0 0 [] d)
      as (added & Hmarks & Hadded & Hcount).
    assert (Hfile : Migrate.import_marks_file filepath (Some bytes) sheet d
                    = Done (Imported n errs) d').
    { unfold Migrate.import_marks_file. rewrite Hread, Hrows, Hcols.
      unfold bind. rewrite Hrun. reflexivity. }
    rewrite Hfile in Hu, Hf. simpl in Hu, Hf.
    rewrite Hrun in Hmarks. simpl in Hmarks.
    destruct (Hcount n errs d' Hrun) as [Hn _].
    exists n, errs, d', added. repeat split; try assumption. simpl in Hn. lia.
Qed.

Lemma delete_upload_marks (filename : string) (d : db) :
  marks (final (App.delete_upload filename d))
  = if nonempty (secure_filename filename)
    then delete_many (fun m => field_eqb (m_source_file m) (Text (secure_filename filename)))
                     (marks d)
    else marks d.
Proof.
  unfold App.delete_upload. destruct (nonempty (secure_filename filename)); reflexivity.
Qed.

(** X10: marks written by an import cannot be removed through the delete
    handler.  Whatever the file imported, the marks the import adds survive
    every later delete of an upload, whatever filename is asked for. *)
Theorem imported_marks_survive_delete (filepath : string) (file : option content)
    (sheet : option string) (d : db) :
  exists added,
    marks (final (Migrate.import_marks_file filepath file sheet d)) = marks d ++ added /\
    forall filename m,
      In m added ->
      In m (marks (final (App.delete_upload filename
                            (final (Migrate.import_marks_file filepath file sheet d))))).
Proof.
  destruct (import_marks_file_appends filepath file sheet d) as (added & Hmarks & Hadded).
  exists added. split; [exact Hmarks |].
  intros filename m Hin. rewrite delete_upload_marks, Hmarks.
  assert (Hm : In m (marks d ++ added)) by (apply in_or_app; right; exact Hin).
  destruct (nonempty (secure_filename filename)); [| exact Hm].
  apply delete_many_In. split; [exact Hm |].
  rewrite Forall_forall in Hadded. destruct (Hadded m Hin) as [-> _]. reflexivity.
Qed.

Lemma keeps_set_students_refl (d : db) : keeps_set_students d d.
Proof. intros reg s H _. exact H. Qed.

Lemma keeps_set_students_trans (a b c : db) :
  keeps_set_students a b -> keeps_set_students b c -> keeps_set_students a c.
Proof. intros Hab Hbc reg s H T. apply Hbc; [apply Hab |]; assumption. Qed.

Lemma same_students_keeps_set_students (d d' : db) :
  same_students d d' -> keeps_set_students d d'.
Proof. intros E reg s H _. rewrite E. exact H. Qed.

Lemma migrate_upsert_student_doc_keeps_set_students (reg : string)
    (name dob : option string) :
  preserves keeps_set_students (Migrate.upsert_student_doc reg name dob).
Proof.
  intros d reg' s Hfind Hset. unfold Migrate.upsert_student_doc.
  destruct (find_one (has_register_number reg) (students d)) as [existing |] eqn:E.
  - destruct (truthy dob && negb (truthy (get (s_dob_hash existing)))) eqn:C.
    + simpl.
      destruct (String.eqb_spec reg' reg) as [-> | Hne].
      * unfold find_one in *. rewrite E in Hfind. injection Hfind as ->.
        rewrite Hset in C. rewrite andb_false_r in C. discriminate.
      * unfold find_one in *. rewrite find_update_one_other by auto. exact Hfind.
    + exact Hfind.
  - assert (Hno : existsb (has_register_number reg) (students d) = false).
    { rewrite existsb_find. unfold find_one in E. rewrite E. reflexivity. }
    destruct (truthy dob);
      unfold bind, ret, hashpw_fresh, now, insert_student; simpl; rewrite Hno; simpl;
      unfold find_one in *; rewrite find_app, Hfind; reflexivity.
Qed.

(** X11: an import never touches a student whose hash is set: whatever
    the file holds, the document found under a register number before the
    import, name and hash and creation time, is the one found after it. *)
Theorem import_leaves_students_with_hash (filepath : string) (file : option content)
    (sheet : option string) (d : db) (reg : string) (s : student) :
  find_one (has_register_number reg) (students d) = Some s ->
  truthy (get (s_dob_hash s)) = true ->
  find_one (has_register_number reg)
           (students (final (Migrate.import_marks_file filepath file sheet d)))
  = Some s.
Proof.
  revert reg s.
  change (keeps_set_students d (final (Migrate.import_marks_file filepath file sheet d))).
  apply import_marks_file_keeps.
  - apply keeps_set_students_refl.
  - apply keeps_set_students_trans.
  - apply (preserves_weaken same_students); [| apply now_students].
    apply same_students_keeps_set_students.
  - apply migrate_upsert_student_doc_keeps_set_students.
  - intro m. apply (preserves_weaken same_students); [| apply insert_mark_students].
    apply same_students_keeps_set_students.
Qed.

(** X12: the student step of an import row completes a student that has no
    hash yet.  For a student stored without a hash (null, absent or empty), a
    row with a date of birth sets the hash to a fresh bcrypt hash of it and
    sets the name to the name of the row, null when the row has none; a row
    without a date of birth leaves the database as it was. *)
Theorem import_sets_missing_hash (reg dob : string) (name : option string) (d : db)
    (s : student) :
  find_one (has_register_number reg) (students d) = Some s ->
  truthy (get (s_dob_hash s)) = false ->
  nonempty dob = true ->
  find_one (has_register_number reg)
           (students (final (Migrate.upsert_student_doc reg name (Some dob) d)))
  = Some (mkStudent (s_register_number s) (of_option name)
                    (Text (hashpw dob (gensalt (salts d)))) (s_created_at s)) /\
  final (Migrate.upsert_student_doc reg name None d) = d.
Proof.
  intros Hfind Hhash Hdob. unfold Migrate.upsert_student_doc. rewrite Hfind. split.
  - simpl truthy. rewrite Hdob, Hhash. simpl.
    unfold find_one in *. rewrite find_update_one_same by auto.
    rewrite Hfind. reflexivity.
  - reflexivity.
Qed.

(** X13: the upload and the import accept the same headers: the import
    finds no required column missing exactly when the upload finds the
    required columns among the normalised labels. *)
Theorem headers_accepted_alike (cols : list string) :
  Migrate.first_missing (Migrate.normalize_columns cols) = None <->
  App.issubset App.required (App.normalized cols) = true.
Proof.
  unfold App.issubset, App.required, Migrate.first_missing. simpl.
  rewrite !in_colmap_normalized.
  destruct (mem "register_number" (App.normalized cols)); simpl;
    [| split; discriminate].
  destruct (mem "subject_code" (App.normalized cols)); simpl;
    [| split; discriminate].
  destruct (mem "marks" (App.normalized cols)); simpl; split;
    try discriminate; reflexivity.
Qed.

End ImportMore.

(** *** Deleting an upload, further *)

Section DeleteMore.
Context {P : Platform} {H : Host}.

Lemma filter_both {A : Type} (p q r : A -> bool) (l : list A) :
  (forall x, p x = q x && r x) ->
  filter p l = filter r (filter q l).
Proof.
  intro Hp. induction l as [| x l IH]; simpl; [reflexivity |].
  rewrite Hp. destruct (q x); simpl; [| exact IH].
  destruct (r x); rewrite IH; reflexivity.
Qed.

Lemma filter_delete_one {A : Type} (p q r : A -> bool) (l : list A) :
  (forall x, p x = q x && negb (r x)) ->
  filter p (delete_one r l) = filter (fun x => negb (r x)) (filter q l).
Proof.
  intro Hp. induction l as [| x l IH]; simpl; [reflexivity |].
  destruct (r x) eqn:Hr.
  - destruct (q x); simpl; rewrite ?Hr; simpl; apply filter_both; exact Hp.
  - simpl. rewrite Hp, Hr, andb_true_r.
    destruct (q x); simpl; rewrite ?Hr; simpl; rewrite IH; reflexivity.
Qed.

Lemma mem_delete_many (x n : string) (l : list string) :
  mem x (delete_many (String.eqb n) l) = mem x l && negb (x =? n).
Proof.
  unfold mem, delete_many. induction l as [| y l IH]; simpl; [reflexivity |].
  destruct (String.eqb_spec n y) as [<- | Hny]; simpl.
  - rewrite IH. destruct (x =? n); simpl; [apply andb_false_r | reflexivity].
  - rewrite IH. destruct (String.eqb_spec x y) as [-> | Hxy]; simpl; [| reflexivity].
    destruct (String.eqb_spec y n) as [-> | _]; [contradiction Hny; reflexivity | reflexivity].
Qed.

Lemma filter_map {A B : Type} (f : A -> B) (p : B -> bool) (l : list A) :
  filter p (map f l) = map f (filter (fun x => p (f x)) l).
Proof.
  induction l as [| x l IH]; simpl; [reflexivity |].
  destruct (p (f x)); simpl; rewrite IH; reflexivity.
Qed.

(** X14: after the delete of an upload, the list of uploads shows no entry
    of that name and every other entry as before, in the same order.  This
    holds also when several uploads were recorded under the name: the delete
    removes one upload document only, but the file of all of them. *)
Theorem deleted_upload_is_no_longer_listed (filename : string) (d : db) :
  nonempty (secure_filename filename) = true ->
  answer (App.list_uploads (final (App.delete_upload filename d)))
  = option_map (filter (fun i => negb (name i =? secure_filename filename)))
               (answer (App.list_uploads d)).
Proof.
  intro Hname. unfold App.delete_upload. rewrite Hname. simpl.
  f_equal. rewrite filter_map. f_equal. simpl.
  apply filter_delete_one. intro u. apply mem_delete_many.
Qed.

Lemma filter_comm {A : Type} (p q : A -> bool) (l : list A) :
  filter p (filter q l) = filter q (filter p l).
Proof.
  induction l as [| x l IH]; simpl; [reflexivity |].
  destruct (p x) eqn:Hp, (q x) eqn:Hq; simpl; rewrite ?Hp, ?Hq, IH; reflexivity.
Qed.

(** X15: what a student sees after the delete of an upload.  A lookup
    after the delete answers as the lookup before it, with the same status and
    name, except that the marks of the deleted file are gone from the list;
    the student and the other marks are still found. *)
Theorem lookup_after_delete (filename register_number dob : string) (d : db) :
  nonempty (secure_filename filename) = true ->
  answer (App.lookup register_number dob (final (App.delete_upload filename d)))
  = match answer (App.lookup register_number dob d) with
    | Some (Details reg student_name found, status) =>
        Some (Details reg student_name
                (delete_many (fun m => field_eqb (m_source_file m)
                                                 (Text (secure_filename filename))) found),
              status)
    | other => other
    end.
Proof.
  intro Hname.
  assert (Hs : students (final (App.delete_upload filename d)) = students d).
  { unfold App.delete_upload. rewrite Hname. reflexivity. }
  assert (Hm : marks (final (App.delete_upload filename d))
               = delete_many (fun m => field_eqb (m_source_file m)
                                                 (Text (secure_filename filename)))
                             (marks d)).
  { unfold App.delete_upload. rewrite Hname. reflexivity. }
  generalize dependent (final (App.delete_upload filename d)). intros d' Hs Hm.
  unfold App.lookup.
  destruct (negb (nonempty (strip register_number)) || negb (nonempty (strip dob)));
    [reflexivity |].
  rewrite Hs.
  destruct (find_one (has_register_number (strip register_number)) (students d))
    as [s |]; [| reflexivity].
  unfold bind, App.verify_hash.
  destruct (get_default (s_dob_hash s)) as [h |]; simpl.
  - destruct (nonempty h); simpl.
    + unfold convert. destruct (checkpw (strip dob) h) as [[|] |]; simpl;
        try reflexivity.
      rewrite Hm. unfold delete_many. rewrite filter_comm. reflexivity.
    + reflexivity.
  - reflexivity.
Qed.

End DeleteMore.

(** *** Staff, login and the guard of the admin routes *)

Section Normalising.

Lemma isspace_lower_ascii (c : ascii) : isspace (lower_ascii c) = isspace c.
Proof.
  destruct c as [b0 b1 b2 b3 b4 b5 b6 b7].
  destruct b0, b1, b2, b3, b4, b5, b6, b7; reflexivity.
Qed.

Lemma lower_ascii_idempotent (c : ascii) : lower_ascii (lower_ascii c) = lower_ascii c.
Proof.
  destruct c as [b0 b1 b2 b3 b4 b5 b6 b7].
  destruct b0, b1, b2, b3, b4, b5, b6, b7; reflexivity.
Qed.

Lemma lower_idempotent (s : string) : lower (lower s) = lower s.
Proof.
  induction s as [| c s IH]; simpl; [reflexivity |].
  rewrite lower_ascii_idempotent, IH. reflexivity.
Qed.

Lemma lower_lstrip (s : string) : lower (lstrip s) = lstrip (lower s).
Proof.
  induction s as [| c s IH]; simpl; [reflexivity |].
  rewrite isspace_lower_ascii. destruct (isspace c); [exact IH | reflexivity].
Qed.

Lemma lower_string_of_list (l : list ascii) :
  lower (string_of_list_ascii l) = string_of_list_ascii (map lower_ascii l).
Proof. induction l as [| c l IH]; simpl; [reflexivity | rewrite IH; reflexivity]. Qed.

Lemma list_of_lower (s : string) :
  list_ascii_of_string (lower s) = map lower_ascii (list_ascii_of_string s).
Proof. induction s as [| c s IH]; simpl; [reflexivity | rewrite IH; reflexivity]. Qed.

Lemma lower_rev_string (s : string) : lower (rev_string s) = rev_string (lower s).
Proof.
  unfold rev_string. rewrite lower_string_of_list, list_of_lower, map_rev. reflexivity.
Qed.

Lemma lower_strip (s : string) : lower (strip s) = strip (lower s).
Proof.
  unfold strip.
  rewrite lower_rev_string, lower_lstrip, lower_rev_string, lower_lstrip. reflexivity.
Qed.

(** The email [login] searches for is a fixed point of its normalisation. *)
Lemma normalised_email_fixed (email : string) :
  lower (strip (lower (strip email))) = lower (strip email).
Proof.
  rewrite (lower_strip email), strip_idempotent, <- lower_strip, lower_idempotent.
  reflexivity.
Qed.

Lemma substring_all (s : string) : substring 0 (String.length s) s = s.
Proof. induction s as [| c s IH]; simpl; [reflexivity | rewrite IH; reflexivity]. Qed.

End Normalising.

Section AuthMore.
Context {P : Platform} {H : Host}.

(** X16: [login] tells a known email from an unknown one when the check
    of the password raises.  For a request with an email and a password on
    which bcrypt's check raises against the stored hash (a password that cannot
    be encoded): when a staff user has the email and a password hash, [login]
    raises, which the service answers with a 500; when no staff user has the
    email, it answers 401 with "Invalid credentials".  Either way the database
    is left as it was. *)
Theorem login_reveals_known_email_when_check_raises (staff_col : list staff_user)
    (email password : string) (d : db) (user : staff_user) (h : string) :
  nonempty (lower (strip email)) = true ->
  nonempty password = true ->
  find_one (fun u => f_email u =? lower (strip email)) staff_col = Some user ->
  get_default (f_password_hash user) = Some h ->
  nonempty h = true ->
  checkpw password h = None ->
  App.login staff_col email password d = Raised ValueError d /\
  forall others,
    find_one (fun u => f_email u =? lower (strip email)) others = None ->
    App.login others email password d = Done (LoginError "Invalid credentials", 401) d.
Proof.
  intros Hemail Hpassword Hfind Hhash Hset Hcheck. unfold App.login.
  rewrite Hemail, Hpassword. simpl. split.
  - rewrite Hfind. unfold bind, App.verify_hash.
    rewrite Hhash, Hset. unfold convert. rewrite Hcheck. reflexivity.
  - intros others Hnone. rewrite Hnone. reflexivity.
Qed.


(** X18: what [require_auth] lets through.  Whatever the header, the role
    asked for and the wrapped function: when the request is served, the header
    starts with "Bearer " and the rest, trimmed, decodes to claims whose role
    is the role asked for, if one is asked for; when it is denied, the status
    is 401 or 403 and the students, marks, uploads and stored files are as
    they were, the wrapped function not having run. *)
Theorem require_auth_gate {A : Type} (role : option string) (fn : payload -> M A)
    (authorization : string) (d : db) :
  match answer (App.require_auth role fn authorization d) with
  | Some (Served _) =>
      prefix "Bearer " authorization = true /\
      exists user,
        jwt_decode (strip (substring 7 (String.length authorization - 7) authorization))
                   JWT_SECRET (utcnow (clock d)) = Valid user /\
        (truthy role = true -> p_role user = role)
  | Some (Denied _ status) =>
      (status = 401 \/ status = 403) /\
      same_collections d (final (App.require_auth role fn authorization d)) /\
      files (final (App.require_auth role fn authorization d)) = files d
  | None => True
  end.
Proof.
  unfold App.require_auth.
  destruct (prefix "Bearer " authorization); simpl.
  2: { split; [left; reflexivity |]. repeat split. }
  unfold App.decode_jwt, bind, now, ret.
  destruct (jwt_decode _ JWT_SECRET (utcnow (clock d))) as [user | |] eqn:Hdecode.
  - destruct (truthy role && App.role_differs (p_role user)
                                 (match role with Some r => r | None => "" end)) eqn:Hrole.
    + simpl. split; [right; reflexivity |]. repeat split.
    + match goal with |- context [fn user ?d1] => destruct (fn user d1) as [a d2 | e d2] end;
        simpl; [| exact I].
      split; [reflexivity |]. exists user. split; [reflexivity |].
      intro Hasked. rewrite Hasked in Hrole. simpl in Hrole.
      destruct role as [r |]; [| discriminate].
      unfold App.role_differs in Hrole. destruct (p_role user) as [held |]; [| discriminate].
      apply negb_false_iff, String.eqb_eq in Hrole. rewrite Hrole. reflexivity.
  - simpl. split; [left; reflexivity |]. repeat split.
  - simpl. split; [left; reflexivity |]. repeat split.
Qed.

(** A bearer token that decodes to claims of the role asked for reaches the
    wrapped function. *)
Lemma bearer_passes {A : Type} (role : option string) (fn : payload -> M A)
    (token : string) (user : payload) (d : db) :
  strip token = token ->
  jwt_decode token JWT_SECRET (utcnow (clock d)) = Valid user ->
  truthy role && App.role_differs (p_role user) (match role with Some r => r | None => "" end)
  = false ->
  App.require_auth role fn ("Bearer " ++ token) d
  = bind (fn user) (fun a => ret (Served a)) (final (now d)).
Proof.
  intros Hstrip Hdecode Hrole. unfold App.require_auth.
  assert (Htoken : strip (substring 7 (String.length ("Bearer " ++ token) - 7)
                            ("Bearer " ++ token)) = token).
  { simpl. rewrite Nat.sub_0_r, substring_all. exact Hstrip. }
  assert (Hprefix : prefix "Bearer " ("Bearer " ++ token) = true)
    by (apply prefix_correct; simpl; destruct token; reflexivity).
  rewrite Htoken, Hprefix. cbn [negb].
  unfold bind at 1. unfold App.decode_jwt, bind at 1, now at 1. cbv beta iota.
  rewrite Hdecode. unfold ret at 1. cbv beta iota. rewrite Hrole. reflexivity.
Qed.

(** X19: from the migration script to an admin route.  On a staff
    collection without the default admin, [create_admin_if_missing] with no
    password creates it and returns the default credentials; a login with
    "admin@example.com" and "admin123" then yields a token; and with that token
    as bearer the two admin routes serve the request instead of denying it.
    The hypotheses are the laws of bcrypt and of the jwt library on the values
    involved: the password checks against its hash, and the token, which has
    no blank at its ends, decodes to its claims before its expiry. *)
Theorem default_admin_reaches_admin_routes (staff_col : list staff_user)
    (filename : string) (d : db) :
  let claims := mkPayload "admin@example.com" (Some "admin")
                  (utcnow (S (clock d)) + timedelta_hours JWT_EXP_HOURS) in
  let token := jwt_encode claims JWT_SECRET in
  find_one (fun u => f_email u =? "admin@example.com") staff_col = None ->
  nonempty (hashpw "admin123" (gensalt (salts d))) = true ->
  checkpw "admin123" (hashpw "admin123" (gensalt (salts d))) = Some true ->
  strip token = token ->
  jwt_decode token JWT_SECRET (utcnow (S (S (clock d)))) = Valid claims ->
  exists staff_col' d1 d2,
    Migrate.create_admin_if_missing staff_col Migrate.DEFAULT_ADMIN_EMAIL None d
    = Done (staff_col', Some ("admin@example.com", "admin123")) d1 /\
    App.login staff_col' "admin@example.com" "admin123" d1 = Done (Token token, 200) d2 /\
    (exists r, answer (App.delete_upload_route ("Bearer " ++ token) filename d2)
               = Some (Served r)) /\
    (exists l, answer (App.list_uploads_route ("Bearer " ++ token) d2) = Some (Served l)).
Proof.
  intros claims token Hnew Hhash Hcheck Hstrip Hdecode.
  exists (staff_col ++ [mkStaff "admin@example.com"
                          (Text (hashpw "admin123" (gensalt (salts d))))
                          (Text "admin") (utcnow (clock d))]),
         (mkDb (students d) (marks d) (uploads d) (files d) (marks_unique d)
               (S (clock d)) (S (salts d))),
         (mkDb (students d) (marks d) (uploads d) (files d) (marks_unique d)
               (S (S (clock d))) (S (salts d))).
  split.
  { unfold Migrate.create_admin_if_missing, Migrate.DEFAULT_ADMIN_EMAIL,
      Migrate.DEFAULT_ADMIN_PASSWORD.
    rewrite Hnew. reflexivity. }
  split.
  { unfold App.login.
    change (lower (strip "admin@example.com")) with "admin@example.com".
    simpl negb. cbv iota.
    unfold find_one in *. rewrite find_app, Hnew. simpl.
    unfold bind, App.verify_hash. simpl. rewrite Hhash.
    unfold convert. rewrite Hcheck. reflexivity. }
  split.
  - unfold App.delete_upload_route.
    rewrite (bearer_passes _ _ token claims) by (assumption || reflexivity).
    unfold bind, App.delete_upload.
    destruct (negb (nonempty (secure_filename filename))); eexists; reflexivity.
  - unfold App.list_uploads_route.
    rewrite (bearer_passes _ _ token claims) by (assumption || reflexivity).
    eexists. reflexivity.
Qed.

(** X20: [login] finds only users stored under a trimmed, lower-case
    email.  On a staff collection in which no email is in that form, every
    login is refused, whatever the email and the password of the request, and
    the database is left as it was: a user created with capitals or blanks in
    the email ([create_staff_user] stores the email as given) cannot log in. *)
Theorem login_needs_normalised_email (staff_col : list staff_user)
    (email password : string) (d : db) :
  (forall u, In u staff_col -> lower (strip (f_email u)) <> f_email u) ->
  exists msg status,
    App.login staff_col email password d = Done (LoginError msg, status) d /\
    (status = 400 \/ status = 401).
Proof.
  intro Hnone. unfold App.login.
  destruct (negb (nonempty (lower (strip email))) || negb (nonempty password)).
  { eexists. eexists. split; [reflexivity | left; reflexivity]. }
  destruct (find_one _ staff_col) as [user |] eqn:Hfind.
  - exfalso. unfold find_one in Hfind. apply find_some in Hfind.
    destruct Hfind as [Hin Heq]. apply String.eqb_eq in Heq.
    apply (Hnone user Hin). rewrite Heq. apply normalised_email_fixed.
  - eexists. eexists. split; [reflexivity | right; reflexivity].
Qed.

End AuthMore.

(** *** backend/models.py, further *)

Section ModelsMore.
Context {P : Platform}.

(** X21: the two [verify_hash], of app.py and of models.py, are the same
    function: for every text and every stored hash, set, empty or missing,
    they answer alike. *)
Theorem verify_hash_alike (text : string) (hashed : option string) :
  Models.verify_hash text hashed = App.verify_hash text hashed.
Proof.
  unfold Models.verify_hash, App.verify_hash.
  destruct hashed as [h |]; simpl; [| reflexivity].
  destruct (nonempty h); reflexivity.
Qed.


(** X23: [insert_mark] followed by [get_marks_for_student].  When the
    insert is not refused by the unique index, the marks found for a register
    number are those found before, followed by the new mark if it is of that
    register number; the new mark carries no source file. *)
Theorem inserted_mark_is_found (register_number subject : string) (value : num)
    (uploaded_by asked : string) (d : db) :
  marks_unique d && existsb (has_key register_number subject) (marks d) = false ->
  exists m found,
    answer (Models.get_marks_for_student asked d) = Some found /\
    answer (Models.get_marks_for_student asked
              (final (Models.insert_mark register_number subject value uploaded_by d)))
    = Some (found ++ if register_number =? asked then [m] else []) /\
    m = mkMark register_number subject value uploaded_by (utcnow (clock d))
               Absent Absent Absent.
Proof.
  intro Hfree. eexists. eexists. split; [reflexivity |]. split; [| reflexivity].
  unfold Models.insert_mark, bind, now, insert_mark. simpl. rewrite Hfree. simpl.
  rewrite filter_app. simpl. reflexivity.
Qed.

End ModelsMore.

(** *** Sequences of uploads and imports *)

Section Sequences.
Context {P : Platform}.

Lemma run_keeps_set_hashes (op : operation) (d : db) : keeps_set_hashes d (run d op).
Proof.
  destruct op as [file email | filepath file sheet]; simpl.
  - apply keeps_hashes_set, upload_marks_keeps_hashes.
  - apply import_marks_file_keeps_set_hashes.
Qed.

(** X7: a date-of-birth hash, once set, survives every sequence of uploads
    and imports.  Whatever the files hold, a student found with a hash that is
    set is still found after the sequence, with that hash: neither
    [upload_marks] nor [import_marks_file] ever replaces it. *)
Theorem set_hash_survives_uploads_and_imports (ops : list operation) (d : db)
    (reg : string) (s : student) :
  find_one (has_register_number reg) (students d) = Some s ->
  truthy (get (s_dob_hash s)) = true ->
  exists s',
    find_one (has_register_number reg) (students (run_all ops d)) = Some s' /\
    s_dob_hash s' = s_dob_hash s.
Proof.
  revert reg s.
  change (keeps_set_hashes d (run_all ops d)).
  revert d. induction ops as [| op ops IH]; intro d.
  - apply keeps_set_hashes_refl.
  - simpl. eapply keeps_set_hashes_trans; [apply run_keeps_set_hashes | apply IH].
Qed.

End Sequences.

(** *** The further properties at example inputs *)

Module MoreRuns.
Import Demo Examples MoreExamples.

Lemma uploaded_student_can_look_up_witness :
  exists d',
    App.upload_row "marks.csv" staff header alice_math (empty_db true) = Done true d' /\
    answer (App.lookup "REG1" "2005-01-01" d')
    = Some (Details "REG1" (Some "Alice")
              (filter (fun m => m_register_number m =? "REG1") (marks d')), 200).
Proof.
  destruct (uploaded_student_can_look_up (P := platform)
              "marks.csv" staff header alice_math (empty_db true) "2005-01-01" (Value 88)
              eq_refl eq_refl eq_refl eq_refl eq_refl eq_refl eq_refl eq_refl)
    as (d' & Hrow & Hlookup & _).
  exists d'. split; [exact Hrow | exact Hlookup].
Defined.

Lemma rejected_upload_leaves_file_stored_witness :
  exists msg d',
    App.upload_marks (Some ("marks.csv", Some no_marks_column_file)) staff (empty_db true)
    = Done (Error msg, 400) d' /\
    same_collections (empty_db true) d' /\
    mem "marks.csv" (files d') = true.
Proof.
  exact (rejected_upload_leaves_file_stored (P := platform)
           "marks.csv" (Some no_marks_column_file) staff (empty_db true)
           eq_refl eq_refl eq_refl).
Defined.

Lemma upload_counts_rows_and_records_once_witness :
  exists d' at_,
    App.upload_marks (Some ("marks.csv", Some mixed_file)) staff (empty_db true)
    = Done (Processed 2, 200) d' /\
    uploads d' = [mkUpload "marks.csv" staff at_] /\
    mem "marks.csv" (files d') = true.
Proof.
  exact (upload_counts_rows_and_records_once (P := platform)
           "marks.csv" (Some mixed_file) staff mixed_file (empty_db true)
           eq_refl eq_refl eq_refl eq_refl eq_refl).
Defined.

Lemma upload_aborts_without_rollback_witness :
  exists d1,
    App.upload_rows "marks.csv" staff header [alice_math] 0
                    (final (App.save "marks.csv" (empty_db true)))
    = Done 1 d1 /\
    App.upload_marks (Some ("marks.csv", Some late_failure_file)) staff (empty_db true)
    = Raised ValueError (final (App.upload_row "marks.csv" staff header bad_marks d1)) /\
    uploads (final (App.upload_row "marks.csv" staff header bad_marks d1)) = [].
Proof.
  exact (upload_aborts_without_rollback (P := platform)
           "marks.csv" (Some late_failure_file) staff late_failure_file (empty_db true)
           [alice_math] [alice_phys] bad_marks
           eq_refl eq_refl eq_refl eq_refl eq_refl eq_refl eq_refl).
Defined.

Lemma set_hash_survives_uploads_and_imports_witness :
  exists s',
    find_one (has_register_number "REG1")
             (students (run_all [Upload (Some ("later.csv", Some bad_dob_file)) staff;
                                 import_once] after_alice))
    = Some s' /\
    s_dob_hash s' = Text "$2b$12$salt0$2005-01-01".
Proof.
  exact (set_hash_survives_uploads_and_imports (P := platform)
           [Upload (Some ("later.csv", Some bad_dob_file)) staff; import_once] after_alice
           "REG1" (mkStudent "REG1" (Text "Alice") (Text "$2b$12$salt0$2005-01-01") 1000)
           eq_refl eq_refl).
Defined.

Lemma import_counts_every_row_once_witness :
  exists n errs d',
    Migrate.import_marks_file "marks.csv" (Some (Some bad_marks_file)) None (empty_db false)
    = Done (Imported n errs) d' /\
    n + List.length errs = 2.
Proof.
  exact (import_counts_every_row_once (P := platform)
           "marks.csv" (Some bad_marks_file) None bad_marks_file (empty_db false)
           eq_refl eq_refl eq_refl
           (range_index_numbered header [bad_marks; alice_math_text])).
Defined.

Lemma import_only_appends_marks_witness :
  (exists added,
     marks (final (Migrate.import_marks_file "marks.csv" (Some (Some text_index_file)) None
                                             after_alice))
     = marks after_alice ++ added /\
     Forall imported added /\
     uploads (final (Migrate.import_marks_file "marks.csv" (Some (Some text_index_file)) None
                                               after_alice))
     = uploads after_alice /\
     files (final (Migrate.import_marks_file "marks.csv" (Some (Some text_index_file)) None
                                             after_alice))
     = files after_alice) /\
  (exists n errs d' added,
     Migrate.import_marks_file "later.csv" (Some (Some bare_file)) None after_alice
     = Done (Imported n errs) d' /\
     marks d' = marks after_alice ++ added /\
     List.length added = n /\
     Forall imported added /\
     uploads d' = uploads after_alice /\
     files d' = files after_alice).
Proof.
  split.
  - exact (proj1 (import_only_appends_marks (P := platform)
                    "marks.csv" (Some text_index_file) None text_index_file after_alice
                    eq_refl eq_refl eq_refl)).
  - exact (proj2 (import_only_appends_marks (P := platform)
                    "later.csv" (Some bare_file) None bare_file after_alice
                    eq_refl eq_refl eq_refl)
                 (range_index_numbered bare_header [alice_chem])).
Defined.

Lemma import_leaves_students_with_hash_witness :
  find_one (has_register_number "REG1")
           (students (final (Migrate.import_marks_file "marks.csv" (Some (Some bad_dob_file))
                                                       None after_alice)))
  = Some (mkStudent "REG1" (Text "Alice") (Text "$2b$12$salt0$2005-01-01") 1000).
Proof.
  exact (import_leaves_students_with_hash (P := platform)
           "marks.csv" (Some (Some bad_dob_file)) None after_alice "REG1"
           (mkStudent "REG1" (Text "Alice") (Text "$2b$12$salt0$2005-01-01") 1000)
           eq_refl eq_refl).
Defined.

Lemma import_sets_missing_hash_witness :
  find_one (has_register_number "REG1")
           (students (final (Migrate.upsert_student_doc "REG1" (Some "Alice")
                                                        (Some "2005-01-01") after_bare)))
  = Some (mkStudent "REG1" (Text "Alice") (Text "$2b$12$salt0$2005-01-01") 1000) /\
  final (Migrate.upsert_student_doc "REG1" (Some "Alice") None after_bare) = after_bare.
Proof.
  exact (import_sets_missing_hash (P := platform)
           "REG1" "2005-01-01" (Some "Alice") after_bare (mkStudent "REG1" Null Absent 1000)
           eq_refl eq_refl eq_refl).
Defined.

Lemma deleted_upload_is_no_longer_listed_witness :
  answer (App.list_uploads (final (App.delete_upload "marks.csv" after_alice))) = Some [].
Proof.
  exact (deleted_upload_is_no_longer_listed (P := platform) (H := host)
           "marks.csv" after_alice eq_refl).
Defined.

Lemma lookup_after_delete_witness :
  answer (App.lookup "REG1" "2005-01-01" (final (App.delete_upload "marks.csv" after_alice)))
  = Some (Details "REG1" (Some "Alice") [], 200).
Proof.
  exact (lookup_after_delete (P := platform)
           "marks.csv" "REG1" "2005-01-01" after_alice eq_refl).
Defined.

Lemma login_reveals_known_email_when_check_raises_witness :
  App.login one_staff "staff@example.com" unencodable_text (empty_db true)
  = Raised ValueError (empty_db true) /\
  App.login [] "staff@example.com" unencodable_text (empty_db true)
  = Done (LoginError "Invalid credentials", 401) (empty_db true).
Proof.
  destruct (login_reveals_known_email_when_check_raises (P := platform) (H := host)
              one_staff "staff@example.com" unencodable_text (empty_db true)
              (mkStaff "staff@example.com" (Text "$2b$12$salt0$pass-1") (Text "staff") 1000)
              "$2b$12$salt0$pass-1"
              eq_refl eq_refl eq_refl eq_refl eq_refl eq_refl)
    as [Hknown Hunknown].
  split; [exact Hknown | exact (Hunknown [] eq_refl)].
Defined.


Lemma default_admin_reaches_admin_routes_witness :
  exists staff_col' d1 d2,
    Migrate.create_admin_if_missing [] Migrate.DEFAULT_ADMIN_EMAIL None (empty_db true)
    = Done (staff_col', Some ("admin@example.com", "admin123")) d1 /\
    App.login staff_col' "admin@example.com" "admin123" d1
    = Done (Token (demo_jwt_encode (mkPayload "admin@example.com" (Some "admin") 1007)
                                   "s3cret"), 200) d2 /\
    (exists r,
       answer (App.delete_upload_route
                 ("Bearer " ++ demo_jwt_encode
                                 (mkPayload "admin@example.com" (Some "admin") 1007) "s3cret")
                 "marks.csv" d2)
       = Some (Served r)) /\
    (exists l,
       answer (App.list_uploads_route
                 ("Bearer " ++ demo_jwt_encode
                                 (mkPayload "admin@example.com" (Some "admin") 1007) "s3cret")
                 d2)
       = Some (Served l)).
Proof.
  exact (default_admin_reaches_admin_routes (P := platform) (H := host)
           [] "marks.csv" (empty_db true) eq_refl eq_refl eq_refl eq_refl eq_refl).
Defined.

Lemma login_needs_normalised_email_witness :
  exists msg status,
    App.login capital_staff "Staff@Example.com" "pass-1" (empty_db true)
    = Done (LoginError msg, status) (empty_db true) /\
    (status = 400 \/ status = 401).
Proof.
  apply (login_needs_normalised_email (P := platform) (H := host)).
  intros u [<- | []]. simpl. discriminate.
Defined.

Lemma inserted_mark_is_found_witness :
  exists m found,
    answer (Models.get_marks_for_student "REG1" after_alice) = Some found /\
    answer (Models.get_marks_for_student "REG1"
              (final (Models.insert_mark "REG1" "CHEM101" (Value 75) staff after_alice)))
    = Some (found ++ [m]) /\
    m = mkMark "REG1" "CHEM101" (Value 75) staff (utcnow (clock after_alice))
               Absent Absent Absent.
Proof.
  exact (inserted_mark_is_found (P := platform)
           "REG1" "CHEM101" (Value 75) staff "REG1" after_alice eq_refl).
Defined.

End MoreRuns.
